(** * Digital Loggers DIN III relay switch platform

    A shallow embedding of
    [homeassistant/components/digitalloggers/switch.py]: the platform
    set-up, the [DINRelay] switch entity and the [DINRelayDevice] that
    caches the status list of one power controller for all its outlets. *)

From Stdlib Require Import Ascii.
From stdpp Require Import base numbers list strings pretty.

Local Open Scope Z_scope.
Local Open Scope string_scope.

(** ** Python values and exceptions *)

(** The values the device library reports for a description or a state:
    a [str], or [None]. *)
Inductive value : Type :=
  | PyNone
  | PyStr (s : string).

Global Instance value_eq_dec : EqDecision value.
Proof. solve_decision. Defined.

(** Truth value of an object, as [or] and [if] test it. *)
Definition truthy (v : value) : bool :=
  match v with
  | PyNone => false
  | PyStr "" => false
  | PyStr _ => true
  end.

(** [a or b]. *)
Definition py_or (a b : value) : value := if truthy a then a else b.

(** [a == b] on these values. *)
Definition py_eq (a b : value) : bool := bool_decide (a = b).

(** [a is None]. *)
Definition is_None (v : value) : bool :=
  match v with PyNone => true | PyStr _ => false end.

(** [str(n)] for an [int]. *)
Definition str (n : Z) : string := pretty n.

(** What an f-string writes for a replacement field. *)
Definition format (v : value) : string :=
  match v with PyNone => "None" | PyStr s => s end.

(** Exceptions are told apart by their class name. *)
Definition exn : Type := string.
Definition IndexError : exn := "IndexError".
Definition TypeError : exn := "TypeError".

(** Raised for a reference that names no object of the store.  The module
    only follows references it received from [setup_platform], which all
    name an object. *)
Definition ReferenceError : exn := "ReferenceError".

(** The error the design document names for an outlet that is out of
    range.  No statement of the module raises it. *)
Definition InvalidOutletError : exn := "InvalidOutletError".

Inductive result (A : Type) : Type :=
  | Return (a : A)
  | Raise (e : exn).
Arguments Return {A} a.
Arguments Raise {A} e.

(** [l[i]] on a list: indices from [-len(l)] to [len(l) - 1] are valid and
    the negative ones count from the end; anything else is an
    [IndexError]. *)
Definition getitem {A} (l : list A) (i : Z) : result A :=
  let n := Z.of_nat (length l) in
  let j := if bool_decide (i < 0) then i + n else i in
  if bool_decide (0 <= j < n)
  then match l !! Z.to_nat j with
       | Some x => Return x
       | None => Raise IndexError
       end
  else Raise IndexError.

(** ** Time *)

(** [datetime] and [timedelta] have a resolution of one microsecond, and
    are counted in microseconds here. *)
Definition datetime : Type := Z.
Definition timedelta : Type := Z.
Definition timedelta_seconds (s : Z) : timedelta := s * 1000000.

(** ** Constants of the module *)

Definition CONF_CYCLETIME : string := "cycletime".
Definition CONF_IGNORE_UNNAMED : string := "ignore_unnamed_outlets".

Definition DEFAULT_NAME : string := "DINRelay".
Definition DEFAULT_USERNAME : string := "admin".
Definition DEFAULT_PASSWORD : string := "admin".
Definition DEFAULT_TIMEOUT : Z := 20.
Definition DEFAULT_CYCLETIME : Z := 2.
Definition DEFAULT_IGNORE_UNNAMED : bool := false.

Definition MIN_TIME_BETWEEN_UPDATES : timedelta := timedelta_seconds 5.

(** A validated platform configuration ([PLATFORM_SCHEMA]). *)
Record Config : Type := {
  conf_host : string;
  conf_name : string;
  conf_username : string;
  conf_password : string;
  conf_timeout : Z;
  conf_cycletime : Z;
  conf_ignore_unnamed_outlets : bool;
}.

(** ** Objects *)

(** A reference to a [DINRelayDevice] in the store. *)
Definition loc : Type := nat.

(** One row of [PowerSwitch.statuslist()]: outlet number, description,
    state. *)
Definition outlet_status : Type := Z * value * value.

(** [dlipower.PowerSwitch]: the handle of the controller, made of the
    arguments of its constructor.  What the controller answers is part of
    the [World] below. *)
Record PowerSwitch : Type := {
  ps_hostname : string;
  ps_userid : string;
  ps_password : string;
  ps_timeout : Z;
  ps_cycletime : Z;
}.

(** An object of [dlipower.Outlet], a class of the device library: the
    attributes that the module reads back, and the [switch] it was given. *)
Record Outlet : Type := {
  switch : loc;
  outlet_number : Z;
  description : value;
  state : value;
}.

Record DINRelayDevice : Type := {
  _power_switch : PowerSwitch;
  _statuslist : option (list outlet_status);
  hostname : string;
  (** Modelled from the spec: the time of the last fetch, which the
      [Throttle] decorator of [update] keeps with the object. *)
  lastFetchTime : option datetime;
}.

Record DINRelay : Type := {
  _controller_name : string;
  _parent_device : loc;
  _outlet : Outlet;
  _outlet_number : Z;
  _name : value;
  _state : bool;
}.

(** ** The world around the module *)

(** The controller at the other end of the library, and the platform that
    receives log records and entities. *)
Record World : Type := {
  (** what [PowerSwitch.verify()] does *)
  verify_reply : result bool;
  (** what the [k]-th call of [PowerSwitch.statuslist()] does; a call that
      returns is taken to return the list of rows *)
  statuslist_reply : nat -> result (list outlet_status);
  (** number of [statuslist()] calls issued so far *)
  statuslist_calls : nat;
  (** what the [k]-th call of [Outlet.on()] or [Outlet.off()] does *)
  outlet_reply : nat -> result unit;
  (** the [on()] ([true]) and [off()] ([false]) calls issued so far, most
      recent last, each with the outlet it was called on *)
  outlet_calls : list (Outlet * bool);
  (** records written with [_LOGGER.error] *)
  errors : list string;
  (** the arguments of the calls of [add_entities] *)
  added : list (list DINRelay);
}.

(** The store: the [DINRelayDevice] objects, which the entities share by
    reference, next to the world. *)
Record State : Type := {
  devices : list DINRelayDevice;
  world : World;
}.

(** ** Computations *)

(** A statement runs on the store and ends by returning or by raising;
    what it wrote before raising stays written. *)
Definition M (A : Type) : Type := State -> result A * State.

Global Instance M_ret : MRet M := fun A a st => (Return a, st).

Global Instance M_bind : MBind M := fun A B f c st =>
  match c st with
  | (Return a, st') => f a st'
  | (Raise e, st') => (Raise e, st')
  end.

Definition raise {A} (e : exn) : M A := fun st => (Raise e, st).

Definition lift {A} (r : result A) : M A := fun st => (r, st).

Definition get_world : M World := fun st => (Return (world st), st).

Definition put_world (w : World) : M unit := fun st =>
  (Return tt, {| devices := devices st; world := w |}).

(** Reading an attribute of the device object behind a reference. *)
Definition read_device {A} (self : loc) (attr : DINRelayDevice -> A) : M A :=
  fun st =>
    match devices st !! self with
    | Some d => (Return (attr d), st)
    | None => (Raise ReferenceError, st)
    end.

(** Writing the device object behind a reference. *)
Definition write_device (self : loc) (f : DINRelayDevice -> DINRelayDevice)
  : M unit := fun st =>
    match devices st !! self with
    | Some d =>
        (Return tt, {| devices := <[self := f d]> (devices st);
                       world := world st |})
    | None => (Raise ReferenceError, st)
    end.

(** Creating a device object. *)
Definition new_device (d : DINRelayDevice) : M loc := fun st =>
  (Return (length (devices st)),
   {| devices := devices st ++ [d]; world := world st |}).

(** ** Calls into the device library and the platform *)

(** [dlipower.PowerSwitch(hostname=, userid=, password=, timeout=,
    cycletime=)]. *)
Definition dlipower_PowerSwitch (hostname userid password : string)
    (timeout cycletime : Z) : PowerSwitch :=
  {| ps_hostname := hostname; ps_userid := userid; ps_password := password;
     ps_timeout := timeout; ps_cycletime := cycletime |}.

(** [dlipower.Outlet(switch, outlet_number, description, state)], for a
    class that keeps the arguments of its constructor as the attributes of
    the same names.  What the set-up does with any other class is stated
    with [setup_platform_with]. *)
Definition dlipower_Outlet (switch : loc) (outlet_number : Z)
    (description state : value) : Outlet :=
  {| switch := switch; outlet_number := outlet_number;
     description := description; state := state |}.

Definition set_statuslist_calls (n : nat) (w : World) : World :=
  {| verify_reply := verify_reply w;
     statuslist_reply := statuslist_reply w;
     statuslist_calls := n;
     outlet_reply := outlet_reply w;
     outlet_calls := outlet_calls w;
     errors := errors w;
     added := added w |}.

Definition set_outlet_calls (l : list (Outlet * bool)) (w : World) : World :=
  {| verify_reply := verify_reply w;
     statuslist_reply := statuslist_reply w;
     statuslist_calls := statuslist_calls w;
     outlet_reply := outlet_reply w;
     outlet_calls := l;
     errors := errors w;
     added := added w |}.

Definition set_errors (l : list string) (w : World) : World :=
  {| verify_reply := verify_reply w;
     statuslist_reply := statuslist_reply w;
     statuslist_calls := statuslist_calls w;
     outlet_reply := outlet_reply w;
     outlet_calls := outlet_calls w;
     errors := l;
     added := added w |}.

Definition set_added (l : list (list DINRelay)) (w : World) : World :=
  {| verify_reply := verify_reply w;
     statuslist_reply := statuslist_reply w;
     statuslist_calls := statuslist_calls w;
     outlet_reply := outlet_reply w;
     outlet_calls := outlet_calls w;
     errors := errors w;
     added := l |}.

(** [power_switch.verify()]. *)
Definition PowerSwitch_verify (power_switch : PowerSwitch) : M bool :=
  fun st => (verify_reply (world st), st).

(** [power_switch.statuslist()]: one full status query, counted whether it
    returns or raises. *)
Definition PowerSwitch_statuslist (power_switch : PowerSwitch)
  : M (list outlet_status) := fun st =>
    let w := world st in
    (statuslist_reply w (statuslist_calls w),
     {| devices := devices st;
        world := set_statuslist_calls (S (statuslist_calls w)) w |}).

(** [outlet.on()] and [outlet.off()]: one command for the outlet, recorded
    whether it returns or raises. *)
Definition Outlet_set (outlet : Outlet) (on : bool) : M unit := fun st =>
  let w := world st in
  (outlet_reply w (length (outlet_calls w)),
   {| devices := devices st;
      world := set_outlet_calls (outlet_calls w ++ [(outlet, on)]) w |}).

Definition Outlet_on (outlet : Outlet) : M unit := Outlet_set outlet true.
Definition Outlet_off (outlet : Outlet) : M unit := Outlet_set outlet false.

(** [_LOGGER.error(msg)]. *)
Definition _LOGGER_error (msg : string) : M unit :=
  w ← get_world; put_world (set_errors (errors w ++ [msg]) w).

(** The [add_entities] callback the platform passes in. *)
Definition add_entities (entities : list DINRelay) : M unit :=
  w ← get_world; put_world (set_added (added w ++ [entities]) w).

(** ** Throttling *)

Module Throttle.

(** Modelled from the spec: the decorator [homeassistant.util.Throttle],
    which is not part of this module.  The design document gives the
    rule of the throttled refresh: when [now - lastFetchTime] is less
    than [minInterval] nothing is fetched and the snapshot stays as it
    is; otherwise the query runs, and on success the snapshot and
    [lastFetchTime] are replaced; on failure the previous snapshot is
    kept and the error goes to the caller. *)
Definition throttled (minInterval : timedelta)
    (lastFetchTime : option datetime) (now : datetime) : bool :=
  match lastFetchTime with
  | Some t => bool_decide (now - t < minInterval)
  | None => false
  end.

(** Modelled from the spec: the assignment that replaces [lastFetchTime]. *)
Definition set_lastFetchTime (t : option datetime) (d : DINRelayDevice)
  : DINRelayDevice :=
  {| _power_switch := _power_switch d; _statuslist := _statuslist d;
     hostname := hostname d; lastFetchTime := t |}.

(** Modelled from the spec: [Throttle(minInterval)(method)] called on
    the object [self] when the clock reads [now]. *)
Definition wrap (minInterval : timedelta) (method : loc -> M unit)
    (self : loc) (now : datetime) : M unit :=
  last ← read_device self lastFetchTime;
  if throttled minInterval last now then mret tt
  else method self;; write_device self (set_lastFetchTime (Some now)).

End Throttle.

(** ** [class DINRelayDevice] *)

Definition DINRelayDevice__init__ (power_switch : PowerSwitch)
    (hostname : string) : DINRelayDevice :=
  {| _power_switch := power_switch; _statuslist := None;
     hostname := hostname; lastFetchTime := None |}.

Definition set__statuslist (l : option (list outlet_status))
    (d : DINRelayDevice) : DINRelayDevice :=
  {| _power_switch := _power_switch d; _statuslist := l;
     hostname := hostname d; lastFetchTime := lastFetchTime d |}.

(** [self._statuslist[outlet_number - 1]]. *)
Definition DINRelayDevice_get_outlet_status (self : loc) (outlet_number : Z)
  : M outlet_status :=
  statuslist ← read_device self _statuslist;
  match statuslist with
  | None => raise TypeError
  | Some l => lift (getitem l (outlet_number - 1))
  end.

(** The body of [update], under the decorator:
    [self._statuslist = self._power_switch.statuslist()]. *)
Definition DINRelayDevice_update_body (self : loc) : M unit :=
  power_switch ← read_device self _power_switch;
  statuslist ← PowerSwitch_statuslist power_switch;
  write_device self (set__statuslist (Some statuslist)).

(** [@Throttle(MIN_TIME_BETWEEN_UPDATES) def update(self)]. *)
Definition DINRelayDevice_update : loc -> datetime -> M unit :=
  Throttle.wrap MIN_TIME_BETWEEN_UPDATES DINRelayDevice_update_body.

(** ** [class DINRelay] *)

Definition DINRelay__init__ (controller_name : string) (parent_device : loc)
    (outlet : Outlet) : DINRelay :=
  {| _controller_name := controller_name;
     _parent_device := parent_device;
     _outlet := outlet;
     _outlet_number := outlet_number outlet;
     _name := description outlet;
     _state := py_eq (state outlet) (PyStr "ON") |}.

Definition DINRelay_name (self : DINRelay) : string :=
  _controller_name self +:+ "_" +:+ format (_name self).

Definition DINRelay_is_on (self : DINRelay) : bool := _state self.

Definition DINRelay_should_poll (self : DINRelay) : bool := true.

Definition DINRelay_unique_id (self : DINRelay) : M string :=
  hostname ← read_device (_parent_device self) hostname;
  mret (hostname +:+ "_" +:+ str (_outlet_number self)).

(** The methods that run statements return [None]; here they return the
    entity as the call leaves it, and when they raise before any
    assignment the entity is as it was. *)
Definition DINRelay_turn_on (self : DINRelay) : M DINRelay :=
  Outlet_on (_outlet self);;
  mret self.

Definition DINRelay_turn_off (self : DINRelay) : M DINRelay :=
  Outlet_off (_outlet self);;
  mret self.

Definition DINRelay_update (self : DINRelay) (now : datetime) : M DINRelay :=
  DINRelayDevice_update (_parent_device self) now;;
  outlet_status ←
    DINRelayDevice_get_outlet_status (_parent_device self)
      (_outlet_number self);
  mret {| _controller_name := _controller_name self;
          _parent_device := _parent_device self;
          _outlet := _outlet self;
          _outlet_number := _outlet_number self;
          _name := py_or (outlet_status.1.2)
                         (PyStr (str (_outlet_number self)));
          _state := py_eq (outlet_status.2) (PyStr "ON") |}.

(** ** [setup_platform] *)

(** The entity appended for one row:
    [DINRelay(controller_name, parent_device,
              dlipower.Outlet(parent_device, outlet_number, description,
                              state))]. *)
Definition setup_entity (controller_name : string) (parent_device : loc)
    (outlet_number : Z) (description state : value) : DINRelay :=
  DINRelay__init__ controller_name parent_device
    (dlipower_Outlet parent_device outlet_number description state).

(** The [for] loop over the status list, which appends to [outlets]. *)
Fixpoint setup_loop (controller_name : string) (parent_device : loc)
    (ignore_unnamed : bool) (statuslist : list outlet_status)
    (outlets : list DINRelay) : list DINRelay :=
  match statuslist with
  | [] => outlets
  | (outlet_number, description, state) :: rest =>
      if is_None description
      then
        if ignore_unnamed
        then (* continue *)
          setup_loop controller_name parent_device ignore_unnamed rest
            outlets
        else
          setup_loop controller_name parent_device ignore_unnamed rest
            (outlets ++
             [setup_entity controller_name parent_device outlet_number
                (PyStr (str outlet_number)) state])
      else
        setup_loop controller_name parent_device ignore_unnamed rest
          (outlets ++
           [setup_entity controller_name parent_device outlet_number
              description state])
  end.

(** [setup_platform(hass, config, add_entities)]: returns [False]
    ([Some false]) or falls off the end ([None]). *)
Definition setup_platform (config : Config) : M (option bool) :=
  let host := conf_host config in
  let controller_name := conf_name config in
  let user := conf_username config in
  let pswd := conf_password config in
  let tout := conf_timeout config in
  let cycl := conf_cycletime config in
  let ignore_unnamed := conf_ignore_unnamed_outlets config in
  let power_switch := dlipower_PowerSwitch host user pswd tout cycl in
  verified ← PowerSwitch_verify power_switch;
  if negb verified
  then _LOGGER_error "Could not connect to DIN III Relay";;
       mret (Some false)
  else
    parent_device ← new_device (DINRelayDevice__init__ power_switch host);
    statuslist ← PowerSwitch_statuslist power_switch;
    add_entities
      (setup_loop controller_name parent_device ignore_unnamed statuslist []);;
    mret None.

(** ** States reached and sample stores *)

(** The store after one more [statuslist()] call has been issued. *)
Definition count_query (st : State) : State :=
  {| devices := devices st;
     world := set_statuslist_calls (S (statuslist_calls (world st)))
                (world st) |}.

(** The device after a refresh at [now] that fetched [l]. *)
Definition refreshed (now : datetime) (l : list outlet_status)
    (d : DINRelayDevice) : DINRelayDevice :=
  {| _power_switch := _power_switch d; _statuslist := Some l;
     hostname := hostname d; lastFetchTime := Some now |}.

(** The next answer of the controller to [statuslist()]. *)
Definition next_reply (st : State) : result (list outlet_status) :=
  statuslist_reply (world st) (statuslist_calls (world st)).

(** The rows a controller reports: a named outlet, one without a
    description, and one whose description is the empty string. *)
Definition three_rows : list outlet_status :=
  [(1, PyStr "lamp", PyStr "ON"); (2, PyNone, PyStr "OFF");
   (3, PyStr "", PyStr "ON")].

(** A world whose controller verifies, answers each status query as
    [reply] says and accepts every command. *)
Definition world_of (reply : nat -> result (list outlet_status)) : World :=
  {| verify_reply := Return true;
     statuslist_reply := reply;
     statuslist_calls := 0;
     outlet_reply := fun _ => Return tt;
     outlet_calls := [];
     errors := [];
     added := [] |}.

Definition relay_switch : PowerSwitch :=
  dlipower_PowerSwitch "10.0.0.2" DEFAULT_USERNAME DEFAULT_PASSWORD
    DEFAULT_TIMEOUT DEFAULT_CYCLETIME.

(** A store with one device, as [DINRelayDevice.__init__] leaves it. *)
Definition new_store (reply : nat -> result (list outlet_status)) : State :=
  {| devices := [DINRelayDevice__init__ relay_switch "10.0.0.2"];
     world := world_of reply |}.

(** The entity of outlet [n] of that device. *)
Definition relay (n : Z) (description state : value) : DINRelay :=
  setup_entity DEFAULT_NAME 0%nat n description state.

(** The controller now reports a single outlet; the entity of outlet 3
    asks for its state. *)
Definition shrunk_store : State :=
  new_store (fun _ => Return [(1, PyStr "lamp", PyStr "ON")]).

(** The controller is out of reach for the first query and answers the
    later ones. *)
Definition recovering_store : State :=
  new_store (fun k => match k with
                      | O => Raise "CommunicationError"
                      | S _ => Return three_rows
                      end).

(** What the loop of [setup_platform] appends for one row, if anything. *)
Definition registered (controller_name : string) (parent_device : loc)
    (ignore_unnamed : bool) (row : outlet_status) : option DINRelay :=
  let '(outlet_number, description, state) := row in
  if is_None description
  then
    if ignore_unnamed then None
    else Some (setup_entity controller_name parent_device outlet_number
                 (PyStr (str outlet_number)) state)
  else Some (setup_entity controller_name parent_device outlet_number
               description state).

(** The store after a set-up that stopped at the failed verification. *)
Definition refused (st : State) : State :=
  {| devices := devices st;
     world := set_errors
                (errors (world st) ++ ["Could not connect to DIN III Relay"])
                (world st) |}.

(** The device a set-up creates. *)
Definition setup_device (config : Config) : DINRelayDevice :=
  DINRelayDevice__init__
    (dlipower_PowerSwitch (conf_host config) (conf_username config)
       (conf_password config) (conf_timeout config) (conf_cycletime config))
    (conf_host config).

(** The entities a set-up hands to [add_entities] when the controller
    reports [l] and the store holds [k] devices already. *)
Definition setup_outlets (config : Config) (k : nat)
    (l : list outlet_status) : list DINRelay :=
  omap (registered (conf_name config) k (conf_ignore_unnamed_outlets config))
    l.

(** The store after a set-up that went through. *)
Definition set_up (config : Config) (l : list outlet_status) (st : State)
  : State :=
  {| devices := devices st ++ [setup_device config];
     world := set_added
                (added (world st)
                 ++ [setup_outlets config (length (devices st)) l])
                (world (count_query st)) |}.

(** The controller refuses the verification. *)
Definition unverified_store : State :=
  {| devices := [];
     world := {| verify_reply := Return false;
                 statuslist_reply := fun _ => Return three_rows;
                 statuslist_calls := 0;
                 outlet_reply := fun _ => Return tt;
                 outlet_calls := [];
                 errors := [];
                 added := [] |} |}.

Definition default_config (ignore_unnamed : bool) : Config :=
  {| conf_host := "10.0.0.2";
     conf_name := DEFAULT_NAME;
     conf_username := DEFAULT_USERNAME;
     conf_password := DEFAULT_PASSWORD;
     conf_timeout := DEFAULT_TIMEOUT;
     conf_cycletime := DEFAULT_CYCLETIME;
     conf_ignore_unnamed_outlets := ignore_unnamed |}.

(** An empty store in front of a controller that reports [three_rows]. *)
Definition empty_store : State :=
  {| devices := []; world := world_of (fun _ => Return three_rows) |}.

(** The entity after [update] read [row] from the status list. *)
Definition updated (self : DINRelay) (row : outlet_status) : DINRelay :=
  {| _controller_name := _controller_name self;
     _parent_device := _parent_device self;
     _outlet := _outlet self;
     _outlet_number := _outlet_number self;
     _name := py_or (row.1.2) (PyStr (str (_outlet_number self)));
     _state := py_eq (row.2) (PyStr "ON") |}.

(** The entity the loop appends for a row when no row is skipped. *)
Definition row_entity (controller_name : string) (parent_device : loc)
    (row : outlet_status) : DINRelay :=
  setup_entity controller_name parent_device (row.1.1)
    (if is_None (row.1.2) then PyStr (str (row.1.1)) else row.1.2) (row.2).

(** The store after the set-up of [default_config] on [empty_store]. *)
Definition set_up_store (ignore_unnamed : bool) : State :=
  (setup_platform (default_config ignore_unnamed) empty_store).2.

(** Whether the loop of [setup_platform] appends an entity for a row. *)
Definition kept (ignore_unnamed : bool) (row : outlet_status) : bool :=
  negb (is_None (row.1.2) && ignore_unnamed).

(** Whether the character [c] occurs in [s]. *)
Fixpoint occurs (c : ascii) (s : string) : bool :=
  match s with
  | EmptyString => false
  | String c' s' => bool_decide (c' = c) || occurs c s'
  end.

(** The store of one device after a first refresh, at time 0, that fetched
    [three_rows]. *)
Definition fetched_store : State :=
  (DINRelayDevice_update 0%nat 0 (new_store (fun _ => Return three_rows))).2.

(** ** The set-up over any [Outlet] class *)

(** [dlipower.Outlet] is a class of the device library and not of this
    module, which only calls its constructor with four arguments and reads
    three attributes of the object back.  An [Outlet_class] stands for
    that constructor: it gives the attributes of the object built from
    the arguments. *)
Definition Outlet_class : Type := loc -> Z -> value -> value -> Outlet.

(** The entity appended for one row, with the constructor [Outlet_init] for
    [dlipower.Outlet]. *)
Definition setup_entity_with (Outlet_init : Outlet_class)
    (controller_name : string) (parent_device : loc) (outlet_number : Z)
    (description state : value) : DINRelay :=
  DINRelay__init__ controller_name parent_device
    (Outlet_init parent_device outlet_number description state).

(** The [for] loop of [setup_platform], with the constructor [Outlet_init]
    for [dlipower.Outlet]. *)
Fixpoint setup_loop_with (Outlet_init : Outlet_class)
    (controller_name : string) (parent_device : loc)
    (ignore_unnamed : bool) (statuslist : list outlet_status)
    (outlets : list DINRelay) : list DINRelay :=
  match statuslist with
  | [] => outlets
  | (outlet_number, description, state) :: rest =>
      if is_None description
      then
        if ignore_unnamed
        then (* continue *)
          setup_loop_with Outlet_init controller_name parent_device
            ignore_unnamed rest outlets
        else
          setup_loop_with Outlet_init controller_name parent_device
            ignore_unnamed rest
            (outlets ++
             [setup_entity_with Outlet_init controller_name parent_device
                outlet_number (PyStr (str outlet_number)) state])
      else
        setup_loop_with Outlet_init controller_name parent_device
          ignore_unnamed rest
          (outlets ++
           [setup_entity_with Outlet_init controller_name parent_device
              outlet_number description state])
  end.

(** [setup_platform(hass, config, add_entities)], with the constructor
    [Outlet_init] for [dlipower.Outlet]. *)
Definition setup_platform_with (Outlet_init : Outlet_class)
    (config : Config) : M (option bool) :=
  let host := conf_host config in
  let controller_name := conf_name config in
  let user := conf_username config in
  let pswd := conf_password config in
  let tout := conf_timeout config in
  let cycl := conf_cycletime config in
  let ignore_unnamed := conf_ignore_unnamed_outlets config in
  let power_switch := dlipower_PowerSwitch host user pswd tout cycl in
  verified ← PowerSwitch_verify power_switch;
  if negb verified
  then _LOGGER_error "Could not connect to DIN III Relay";;
       mret (Some false)
  else
    parent_device ← new_device (DINRelayDevice__init__ power_switch host);
    statuslist ← PowerSwitch_statuslist power_switch;
    add_entities
      (setup_loop_with Outlet_init controller_name parent_device
         ignore_unnamed statuslist []);;
    mret None.

(** What the loop appends for one row, if anything, with the constructor
    [Outlet_init]. *)
Definition registered_with (Outlet_init : Outlet_class)
    (controller_name : string) (parent_device : loc)
    (ignore_unnamed : bool) (row : outlet_status) : option DINRelay :=
  let '(outlet_number, description, state) := row in
  if is_None description
  then
    if ignore_unnamed then None
    else Some (setup_entity_with Outlet_init controller_name parent_device
                 outlet_number (PyStr (str outlet_number)) state)
  else Some (setup_entity_with Outlet_init controller_name parent_device
               outlet_number description state).

(** An [Outlet] class whose constructor puts [str] of the outlet number in
    the place of a description that is falsy, [None] or empty, and keeps
    the other arguments. *)
Definition Outlet_naming_itself : Outlet_class :=
  fun switch outlet_number description state =>
    {| switch := switch;
       outlet_number := outlet_number;
       description := if truthy description then description
                      else PyStr (str outlet_number);
       state := state |}.

(** * Properties *)

(** ** Running computations *)

Section Running.

Context {A B : Type}.

Lemma bind_Return (c : M A) (f : A -> M B) st a st' :
  c st = (Return a, st') -> (c ≫= f) st = f a st'.
Proof. intros Hc. unfold mbind, M_bind. by rewrite Hc. Qed.

Lemma bind_Raise (c : M A) (f : A -> M B) st e st' :
  c st = (Raise e, st') -> (c ≫= f) st = (Raise e, st').
Proof. intros Hc. unfold mbind, M_bind. by rewrite Hc. Qed.

Lemma read_device_Some (attr : DINRelayDevice -> A) st self d :
  devices st !! self = Some d ->
  read_device self attr st = (Return (attr d), st).
Proof. intros Hd. unfold read_device. by rewrite Hd. Qed.

End Running.

Lemma write_device_Some f st self d :
  devices st !! self = Some d ->
  write_device self f st
  = (Return tt, {| devices := <[self := f d]> (devices st);
                   world := world st |}).
Proof. intros Hd. unfold write_device. by rewrite Hd. Qed.

(** Reads the attribute of the device that [Hd] finds behind the
    reference, at the head of a computation. *)
Ltac read_attr Hd :=
  rewrite (bind_Return _ _ _ _ _ (read_device_Some _ _ _ _ Hd)).

(** ** Strings *)

Lemma pretty_N_go_nonempty x s : s ≠ "" -> pretty_N_go x s ≠ "".
Proof.
  revert s. induction (N.lt_wf_0 x) as [x _ IH]; intros s Hs.
  destruct (decide (x = 0)%N) as [->|Hx].
  - by rewrite pretty_N_go_0.
  - rewrite pretty_N_go_step by lia. apply IH; [|done].
    apply N.div_lt; lia.
Qed.

Lemma pretty_positive_nonempty (p : positive) : pretty p ≠ "".
Proof.
  unfold pretty, pretty_positive, pretty, pretty_N.
  case_decide; [done|].
  rewrite pretty_N_go_step by lia. by apply pretty_N_go_nonempty.
Qed.

(** [str(n)] is never the empty string. *)
Lemma str_nonempty n : str n ≠ "".
Proof.
  unfold str, pretty, pretty_Z. destruct n as [|p|p]; [done| |done].
  apply pretty_positive_nonempty.
Qed.

Lemma truthy_str n : truthy (PyStr (str n)) = true.
Proof.
  pose proof (str_nonempty n) as H. by destruct (str n).
Qed.

Lemma append_inj_r (p a b : string) : p +:+ a = p +:+ b -> a = b.
Proof. induction p as [|c p IH]; simpl; [done|]. intros [= H]. auto. Qed.

(** ** Indexing *)

Section Indexing.

Context {A : Type}.
Implicit Types (l : list A) (i : Z).

Lemma getitem_in_range l i x :
  0 <= i -> l !! Z.to_nat i = Some x -> getitem l i = Return x.
Proof.
  intros Hi Hx. unfold getitem. cbv zeta.
  pose proof (lookup_lt_Some _ _ _ Hx) as Hlt.
  rewrite (bool_decide_eq_false_2 (i < 0)) by lia.
  rewrite bool_decide_eq_true_2 by lia.
  by rewrite Hx.
Qed.

Lemma getitem_beyond l i :
  Z.of_nat (length l) <= i -> getitem l i = Raise IndexError.
Proof.
  intros Hi. unfold getitem. cbv zeta.
  rewrite (bool_decide_eq_false_2 (i < 0)) by lia.
  by rewrite bool_decide_eq_false_2 by lia.
Qed.

(** A negative index down to [-len(l)] counts from the end. *)
Lemma getitem_negative l i x :
  - Z.of_nat (length l) <= i < 0 ->
  l !! Z.to_nat (i + Z.of_nat (length l)) = Some x ->
  getitem l i = Return x.
Proof.
  intros Hi Hx. unfold getitem. cbv zeta.
  rewrite (bool_decide_eq_true_2 (i < 0)) by lia.
  rewrite bool_decide_eq_true_2 by lia.
  by rewrite Hx.
Qed.

Lemma getitem_Return_inv l i x :
  getitem l i = Return x -> - Z.of_nat (length l) <= i < Z.of_nat (length l).
Proof.
  unfold getitem. cbv zeta.
  repeat case_bool_decide; try done; intros _; lia.
Qed.

End Indexing.

(** ** The status query and the cache *)

Lemma update_body_Return st self d l :
  devices st !! self = Some d ->
  next_reply st = Return l ->
  DINRelayDevice_update_body self st
  = (Return tt,
     {| devices := <[self := set__statuslist (Some l) d]> (devices st);
        world := world (count_query st) |}).
Proof.
  intros Hd Hl. unfold DINRelayDevice_update_body.
  read_attr Hd.
  rewrite (bind_Return _ _ st l (count_query st))
    by (unfold PowerSwitch_statuslist; fold (next_reply st); by rewrite Hl).
  by rewrite (write_device_Some _ _ _ d).
Qed.

Lemma update_body_Raise st self d e :
  devices st !! self = Some d ->
  next_reply st = Raise e ->
  DINRelayDevice_update_body self st = (Raise e, count_query st).
Proof.
  intros Hd He. unfold DINRelayDevice_update_body.
  read_attr Hd.
  apply bind_Raise.
  unfold PowerSwitch_statuslist; fold (next_reply st); by rewrite He.
Qed.

(** Within the interval the refresh does nothing at all. *)
Lemma update_throttled st self d now :
  devices st !! self = Some d ->
  Throttle.throttled MIN_TIME_BETWEEN_UPDATES (lastFetchTime d) now = true ->
  DINRelayDevice_update self now st = (Return tt, st).
Proof.
  intros Hd Ht. unfold DINRelayDevice_update, Throttle.wrap.
  read_attr Hd.
  by rewrite Ht.
Qed.

(** Outside the interval the query runs; when it returns, the snapshot and
    the time of the fetch are replaced. *)
Lemma update_fetched st self d now l :
  devices st !! self = Some d ->
  Throttle.throttled MIN_TIME_BETWEEN_UPDATES (lastFetchTime d) now = false ->
  next_reply st = Return l ->
  DINRelayDevice_update self now st
  = (Return tt,
     {| devices := <[self := refreshed now l d]> (devices st);
        world := world (count_query st) |}).
Proof.
  intros Hd Ht Hl. unfold DINRelayDevice_update, Throttle.wrap.
  read_attr Hd.
  rewrite Ht.
  rewrite (bind_Return _ _ _ _ _ (update_body_Return _ _ _ _ Hd Hl)).
  rewrite (write_device_Some _ _ _ (set__statuslist (Some l) d)); simpl.
  - by rewrite list_insert_insert_eq.
  - apply list_lookup_insert_eq. by eapply lookup_lt_Some.
Qed.

(** When the query raises, so does the refresh, and the device is as it
    was. *)
Lemma update_failed st self d now e :
  devices st !! self = Some d ->
  Throttle.throttled MIN_TIME_BETWEEN_UPDATES (lastFetchTime d) now = false ->
  next_reply st = Raise e ->
  DINRelayDevice_update self now st = (Raise e, count_query st).
Proof.
  intros Hd Ht He. unfold DINRelayDevice_update, Throttle.wrap.
  read_attr Hd.
  rewrite Ht.
  apply bind_Raise. by eapply update_body_Raise.
Qed.

Lemma throttled_spec last now :
  Throttle.throttled MIN_TIME_BETWEEN_UPDATES last now = true
  <-> exists t, last = Some t /\ now - t < MIN_TIME_BETWEEN_UPDATES.
Proof.
  unfold Throttle.throttled. destruct last as [t|].
  - rewrite bool_decide_eq_true. split; [eauto|]. by intros (? & [= <-] & ?).
  - split; [done|]. by intros (? & ? & ?).
Qed.

Lemma get_outlet_status_run st self d l n :
  devices st !! self = Some d ->
  _statuslist d = Some l ->
  DINRelayDevice_get_outlet_status self n st = (getitem l (n - 1), st).
Proof.
  intros Hd Hl. unfold DINRelayDevice_get_outlet_status.
  read_attr Hd. by rewrite Hl.
Qed.

(** Before the first fetch there is no list to index. *)
Lemma get_outlet_status_no_snapshot st self d n :
  devices st !! self = Some d ->
  _statuslist d = None ->
  DINRelayDevice_get_outlet_status self n st = (Raise TypeError, st).
Proof.
  intros Hd Hl. unfold DINRelayDevice_get_outlet_status.
  read_attr Hd. by rewrite Hl.
Qed.

(** ** Outlets beyond the snapshot *)

(** C1, as stated, fails: with a snapshot of one row, the request for
    outlet 3 ends in [IndexError], the out-of-range error of list
    indexing, and not in [InvalidOutletError]. *)
Lemma update_beyond_snapshot_not_InvalidOutletError :
  let request := DINRelay_update (relay 3 (PyStr "") (PyStr "ON")) 0
                   shrunk_store in
  (exists d snapshot,
     devices request.2 !! 0%nat = Some d
     /\ _statuslist d = Some snapshot
     /\ Z.of_nat (length snapshot) < 3)
  /\ request.1 = Raise IndexError
  /\ request.1 <> Raise InvalidOutletError.
Proof.
  split; [do 2 eexists; repeat split; reflexivity|]. split; [reflexivity|].
  simpl. discriminate.
Qed.

(** C1 (amended): for every snapshot and every outlet number strictly
    greater than its length, the request for that outlet's state
    ([DINRelay.update], through [DINRelayDevice.get_outlet_status]) fails
    with [IndexError]; it returns no row, so the index is not wrapped. *)
Theorem update_beyond_snapshot_IndexError self now st st1 d1 snapshot :
  DINRelayDevice_update (_parent_device self) now st = (Return tt, st1) ->
  devices st1 !! _parent_device self = Some d1 ->
  _statuslist d1 = Some snapshot ->
  Z.of_nat (length snapshot) < _outlet_number self ->
  DINRelayDevice_get_outlet_status (_parent_device self)
    (_outlet_number self) st1 = (Raise IndexError, st1)
  /\ DINRelay_update self now st = (Raise IndexError, st1).
Proof.
  intros Hup Hd Hl Hn.
  assert (DINRelayDevice_get_outlet_status (_parent_device self)
            (_outlet_number self) st1 = (Raise IndexError, st1)) as Hget.
  { rewrite (get_outlet_status_run _ _ _ _ _ Hd Hl).
    by rewrite getitem_beyond by lia. }
  split; [done|]. unfold DINRelay_update.
  rewrite (bind_Return _ _ _ _ _ Hup).
  by apply bind_Raise.
Qed.

Lemma update_beyond_snapshot_IndexError_witness :
  DINRelay_update (relay 3 (PyStr "") (PyStr "ON")) 0 shrunk_store
  = (Raise IndexError,
     (DINRelayDevice_update 0%nat 0 shrunk_store).2).
Proof.
  apply (update_beyond_snapshot_IndexError
           (relay 3 (PyStr "") (PyStr "ON")) 0 shrunk_store
           (DINRelayDevice_update 0%nat 0 shrunk_store).2
           (refreshed 0 [(1, PyStr "lamp", PyStr "ON")]
              (DINRelayDevice__init__ relay_switch "10.0.0.2"))
           [(1, PyStr "lamp", PyStr "ON")]).
  - reflexivity.
  - reflexivity.
  - reflexivity.
  - simpl. lia.
Defined.

(** Outlet number 0 is not beyond the snapshot: index [-1] wraps to the
    last row. *)
Lemma get_outlet_status_zero_wraps st self d l row :
  devices st !! self = Some d ->
  _statuslist d = Some l ->
  last l = Some row ->
  DINRelayDevice_get_outlet_status self 0 st = (Return row, st).
Proof.
  intros Hd Hl Hrow. rewrite (get_outlet_status_run _ _ _ _ _ Hd Hl).
  f_equal. rewrite last_lookup in Hrow.
  pose proof (lookup_lt_Some _ _ _ Hrow) as Hlt.
  apply getitem_negative; [lia|].
  by replace (Z.to_nat (0 - 1 + Z.of_nat (length l))) with (pred (length l))
    by lia.
Qed.

(** ** Two refreshes in a row *)

Lemma MIN_TIME_BETWEEN_UPDATES_pos : 0 < MIN_TIME_BETWEEN_UPDATES.
Proof. done. Qed.

Lemma throttled_after_fetch t1 t2 :
  t2 - t1 < MIN_TIME_BETWEEN_UPDATES ->
  Throttle.throttled MIN_TIME_BETWEEN_UPDATES (Some t1) t2 = true.
Proof. intros H. by apply bool_decide_eq_true_2. Qed.

Lemma not_throttled_after_interval t1 t2 :
  MIN_TIME_BETWEEN_UPDATES <= t2 - t1 ->
  Throttle.throttled MIN_TIME_BETWEEN_UPDATES (Some t1) t2 = false.
Proof. intros H. apply bool_decide_eq_false_2. lia. Qed.

(** A call that is let through stays so for any later time that is at
    least the interval away. *)
Lemma not_throttled_later last t1 t2 :
  Throttle.throttled MIN_TIME_BETWEEN_UPDATES last t1 = false ->
  MIN_TIME_BETWEEN_UPDATES <= t2 - t1 ->
  Throttle.throttled MIN_TIME_BETWEEN_UPDATES last t2 = false.
Proof.
  pose proof MIN_TIME_BETWEEN_UPDATES_pos.
  destruct last as [t0|]; [|done]. simpl.
  rewrite !bool_decide_eq_false. lia.
Qed.

(** C2, as stated, fails: on a new device whose first status query raises,
    a second refresh one second later queries again, so two queries are
    issued within the interval and the second call replaces the
    snapshot. *)
Lemma update_twice_within_interval_two_queries :
  let first := DINRelayDevice_update 0%nat 0 recovering_store in
  let second := DINRelayDevice_update 0%nat (timedelta_seconds 1) first.2 in
  timedelta_seconds 1 - 0 < MIN_TIME_BETWEEN_UPDATES
  /\ statuslist_calls (world recovering_store) = 0%nat
  /\ statuslist_calls (world second.2) = 2%nat
  /\ statuslist_calls (world second.2) <> statuslist_calls (world first.2)
  /\ _statuslist <$> devices first.2 !! 0%nat = Some None
  /\ _statuslist <$> devices second.2 !! 0%nat = Some (Some three_rows).
Proof. repeat split; done. Qed.

(** C2 (amended): two refreshes of the shared device ([DINRelayDevice.update])
    whose times differ by less than [MIN_TIME_BETWEEN_UPDATES] (5 seconds),
    the first of them let through by the throttle and its status query
    returning: exactly one [statuslist()] query is issued; the second call
    fetches nothing and leaves the store, and so the cached snapshot, as
    the first call left it. *)
Theorem update_twice_within_interval st self d t1 t2 l :
  devices st !! self = Some d ->
  Throttle.throttled MIN_TIME_BETWEEN_UPDATES (lastFetchTime d) t1 = false ->
  next_reply st = Return l ->
  t2 - t1 < MIN_TIME_BETWEEN_UPDATES ->
  exists st1,
    DINRelayDevice_update self t1 st = (Return tt, st1)
    /\ DINRelayDevice_update self t2 st1 = (Return tt, st1)
    /\ statuslist_calls (world st1) = S (statuslist_calls (world st))
    /\ _statuslist <$> devices st1 !! self = Some (Some l).
Proof.
  intros Hd Ht Hl Hlt.
  pose proof (lookup_lt_Some _ _ _ Hd) as Hself.
  eexists. split; [by apply update_fetched|].
  assert (devices
            {| devices := <[self := refreshed t1 l d]> (devices st);
               world := world (count_query st) |} !! self
          = Some (refreshed t1 l d)) as Hd1
    by by apply list_lookup_insert_eq.
  split; [|split; [done|by rewrite Hd1]].
  eapply update_throttled; [exact Hd1|].
  by apply throttled_after_fetch.
Qed.

Lemma update_twice_within_interval_witness :
  exists st1,
    DINRelayDevice_update 0%nat 0 (new_store (fun _ => Return three_rows))
    = (Return tt, st1)
    /\ DINRelayDevice_update 0%nat (timedelta_seconds 4) st1 = (Return tt, st1)
    /\ statuslist_calls (world st1) = 1%nat
    /\ _statuslist <$> devices st1 !! 0%nat = Some (Some three_rows).
Proof.
  apply (update_twice_within_interval
           (new_store (fun _ => Return three_rows)) 0%nat
           (DINRelayDevice__init__ relay_switch "10.0.0.2")
           0 (timedelta_seconds 4) three_rows).
  - reflexivity.
  - reflexivity.
  - reflexivity.
  - vm_compute. reflexivity.
Defined.

(** C3, as stated, fails: on a device that fetched at time 0, the calls at
    1 second and at 6 seconds are 5 seconds apart, but the first of them
    is within the interval of the earlier fetch and issues no query; only
    the second one does. *)
Lemma update_twice_apart_one_query :
  let first :=
    DINRelayDevice_update 0%nat (timedelta_seconds 1) fetched_store in
  let second :=
    DINRelayDevice_update 0%nat (timedelta_seconds 6) first.2 in
  MIN_TIME_BETWEEN_UPDATES <= timedelta_seconds 6 - timedelta_seconds 1
  /\ statuslist_calls (world fetched_store) = 1%nat
  /\ statuslist_calls (world first.2) = 1%nat
  /\ statuslist_calls (world second.2) = 2%nat.
Proof. repeat split. vm_compute. discriminate. Qed.

(** C3 (amended): two refreshes of the shared device
    ([DINRelayDevice.update]) at least [MIN_TIME_BETWEEN_UPDATES]
    (5 seconds) apart, the first of them let through by the throttle: each
    of the two calls issues a [statuslist()] query, two in all, whatever
    the controller answers. *)
Theorem update_twice_apart st self d t1 t2 :
  devices st !! self = Some d ->
  Throttle.throttled MIN_TIME_BETWEEN_UPDATES (lastFetchTime d) t1 = false ->
  MIN_TIME_BETWEEN_UPDATES <= t2 - t1 ->
  let first := DINRelayDevice_update self t1 st in
  let second := DINRelayDevice_update self t2 first.2 in
  statuslist_calls (world first.2) = S (statuslist_calls (world st))
  /\ statuslist_calls (world second.2) = S (statuslist_calls (world first.2)).
Proof.
  intros Hd Ht Hge first second. subst first second.
  pose proof (lookup_lt_Some _ _ _ Hd) as Hself.
  destruct (next_reply st) as [l|e] eqn:Hr.
  - rewrite (update_fetched _ _ _ _ _ Hd Ht Hr). cbn [snd]. split; [done|].
    set (st1 := {| devices := _; world := _ |}).
    assert (devices st1 !! self = Some (refreshed t1 l d)) as Hd1
      by by apply list_lookup_insert_eq.
    assert (Throttle.throttled MIN_TIME_BETWEEN_UPDATES
              (lastFetchTime (refreshed t1 l d)) t2 = false) as Ht2
      by by apply not_throttled_after_interval.
    destruct (next_reply st1) as [l2|e2] eqn:Hr2.
    + by rewrite (update_fetched _ _ _ _ _ Hd1 Ht2 Hr2).
    + by rewrite (update_failed _ _ _ _ _ Hd1 Ht2 Hr2).
  - rewrite (update_failed _ _ _ _ _ Hd Ht Hr). cbn [snd]. split; [done|].
    assert (devices (count_query st) !! self = Some d) as Hd1 by done.
    assert (Throttle.throttled MIN_TIME_BETWEEN_UPDATES
              (lastFetchTime d) t2 = false) as Ht2
      by by eapply not_throttled_later.
    destruct (next_reply (count_query st)) as [l2|e2] eqn:Hr2.
    + by rewrite (update_fetched _ _ _ _ _ Hd1 Ht2 Hr2).
    + by rewrite (update_failed _ _ _ _ _ Hd1 Ht2 Hr2).
Qed.

Lemma update_twice_apart_witness :
  let st := new_store (fun _ => Return three_rows) in
  let first := DINRelayDevice_update 0%nat 0 st in
  let second := DINRelayDevice_update 0%nat (timedelta_seconds 5) first.2 in
  statuslist_calls (world first.2) = 1%nat
  /\ statuslist_calls (world second.2) = S (statuslist_calls (world first.2)).
Proof.
  apply (update_twice_apart
           (new_store (fun _ => Return three_rows)) 0%nat
           (DINRelayDevice__init__ relay_switch "10.0.0.2")
           0 (timedelta_seconds 5)).
  - reflexivity.
  - reflexivity.
  - vm_compute. discriminate.
Defined.

(** A new device lets its first refresh through. *)
Lemma new_device_not_throttled power_switch hostname now :
  Throttle.throttled MIN_TIME_BETWEEN_UPDATES
    (lastFetchTime (DINRelayDevice__init__ power_switch hostname)) now
  = false.
Proof. done. Qed.

(** ** A status query that fails *)

(** C6: whatever the device caches, when the status query
    ([power_switch.statuslist()]) raises during a refresh, the error goes
    to the caller, both of the body of [DINRelayDevice.update] and of the
    throttled method, and the device objects, with the cached
    [_statuslist] and the time of the last fetch, are as before: the
    failure is not passed off as fresh data. *)
Theorem update_failure_keeps_snapshot st self d now e :
  devices st !! self = Some d ->
  Throttle.throttled MIN_TIME_BETWEEN_UPDATES (lastFetchTime d) now = false ->
  next_reply st = Raise e ->
  exists st',
    DINRelayDevice_update_body self st = (Raise e, st')
    /\ DINRelayDevice_update self now st = (Raise e, st')
    /\ devices st' = devices st
    /\ devices st' !! self = Some d
    /\ statuslist_calls (world st') = S (statuslist_calls (world st)).
Proof.
  intros Hd Ht He. exists (count_query st).
  split; [by eapply update_body_Raise|].
  split; [by eapply update_failed|done].
Qed.

Lemma update_failure_keeps_snapshot_witness :
  exists st',
    DINRelayDevice_update_body 0%nat recovering_store
    = (Raise "CommunicationError", st')
    /\ DINRelayDevice_update 0%nat 0 recovering_store
       = (Raise "CommunicationError", st')
    /\ devices st' = devices recovering_store
    /\ devices st' !! 0%nat
       = Some (DINRelayDevice__init__ relay_switch "10.0.0.2")
    /\ statuslist_calls (world st') = 1%nat.
Proof.
  apply (update_failure_keeps_snapshot recovering_store 0%nat
           (DINRelayDevice__init__ relay_switch "10.0.0.2") 0
           "CommunicationError").
  - reflexivity.
  - reflexivity.
  - reflexivity.
Defined.

(** ** Set-up *)

Lemma setup_loop_omap c p ign l outlets :
  setup_loop c p ign l outlets
  = (outlets ++ omap (registered c p ign) l)%list.
Proof.
  revert outlets. induction l as [|[[n d] s] l IH]; intros outlets; csimpl.
  - by rewrite app_nil_r.
  - destruct (is_None d), ign; csimpl; rewrite IH, <- ?app_assoc; done.
Qed.

Section Omap.

Context {A B : Type} (f : A -> option B).

Lemma omap_length_le (l : list A) : (length (omap f l) <= length l)%nat.
Proof.
  induction l as [|x l IH]; csimpl; [done|].
  destruct (f x); csimpl; lia.
Qed.

Lemma omap_length_lt (l : list A) x :
  x ∈ l -> f x = None -> (length (omap f l) < length l)%nat.
Proof.
  intros Hx Hfx. induction Hx as [x l|x y l Hx IH]; csimpl.
  - rewrite Hfx. pose proof (omap_length_le l). lia.
  - specialize (IH Hfx). destruct (f y); csimpl; lia.
Qed.

Lemma omap_total (g : A -> B) (l : list A) :
  (forall x, x ∈ l -> f x = Some (g x)) -> omap f l = g <$> l.
Proof.
  induction l as [|x l IH]; intros Hf; csimpl; [done|].
  rewrite (Hf x) by left. f_equal. apply IH. intros y Hy. apply Hf. by right.
Qed.

End Omap.

Lemma setup_platform_refused config st :
  verify_reply (world st) = Return false ->
  setup_platform config st = (Return (Some false), refused st).
Proof.
  intros Hv. unfold setup_platform, mbind, M_bind, PowerSwitch_verify.
  by rewrite Hv.
Qed.

Lemma setup_platform_raises config st e :
  verify_reply (world st) = Raise e ->
  setup_platform config st = (Raise e, st).
Proof.
  intros Hv. unfold setup_platform, mbind, M_bind, PowerSwitch_verify.
  by rewrite Hv.
Qed.

Lemma setup_platform_set_up config st l :
  verify_reply (world st) = Return true ->
  next_reply st = Return l ->
  setup_platform config st = (Return None, set_up config l st).
Proof.
  intros Hv Hl.
  unfold setup_platform, mbind, M_bind, PowerSwitch_verify. rewrite Hv.
  unfold next_reply in Hl. simpl. rewrite Hl. simpl.
  by rewrite setup_loop_omap.
Qed.

Lemma set_up_device config l st :
  devices (set_up config l st) !! length (devices st)
  = Some (setup_device config).
Proof. simpl. by apply list_lookup_middle. Qed.

(** C4: for every configuration, when the verification of the device
    ([power_switch.verify()]) returns false, [setup_platform] never calls
    [add_entities], so no entity is registered, in whole or in part; it
    reports the failure to its caller by logging the error and returning
    [False], without creating a device object or querying the status. *)
Theorem setup_platform_unverified config st :
  verify_reply (world st) = Return false ->
  exists st',
    setup_platform config st = (Return (Some false), st')
    /\ added (world st') = added (world st)
    /\ errors (world st')
       = (errors (world st) ++ ["Could not connect to DIN III Relay"])%list
    /\ devices st' = devices st
    /\ statuslist_calls (world st') = statuslist_calls (world st).
Proof.
  intros Hv. exists (refused st).
  split; [by apply setup_platform_refused|done].
Qed.

Lemma setup_platform_unverified_witness :
  exists st',
    setup_platform (default_config DEFAULT_IGNORE_UNNAMED) unverified_store
    = (Return (Some false), st')
    /\ added (world st') = []
    /\ errors (world st') = ["Could not connect to DIN III Relay"]
    /\ devices st' = []
    /\ statuslist_calls (world st') = 0%nat.
Proof.
  apply (setup_platform_unverified (default_config DEFAULT_IGNORE_UNNAMED)
           unverified_store).
  reflexivity.
Defined.

(** C7: for every status snapshot [l], of size K, the set-up run with
    [ignore_unnamed_outlets] true calls [add_entities] once, with at most
    K entities, and with strictly fewer than K whenever some row of [l]
    has no description. *)
Theorem setup_platform_ignore_unnamed_count config st l :
  conf_ignore_unnamed_outlets config = true ->
  verify_reply (world st) = Return true ->
  next_reply st = Return l ->
  exists st' outlets,
    setup_platform config st = (Return None, st')
    /\ added (world st') = (added (world st) ++ [outlets])%list
    /\ (length outlets <= length l)%nat
    /\ ((exists n s, (n, PyNone, s) ∈ l) ->
        (length outlets < length l)%nat).
Proof.
  intros Hign Hv Hl.
  exists (set_up config l st), (setup_outlets config (length (devices st)) l).
  split; [by apply setup_platform_set_up|]. split; [done|].
  unfold setup_outlets. split; [apply omap_length_le|].
  intros (n & s & Hin). eapply omap_length_lt; [exact Hin|].
  simpl. by rewrite Hign.
Qed.

Lemma setup_platform_ignore_unnamed_count_witness :
  exists st' outlets,
    setup_platform (default_config true) empty_store = (Return None, st')
    /\ added (world st') = ([] ++ [outlets])%list
    /\ (length outlets <= 3)%nat
    /\ ((exists n s, (n, PyNone, s) ∈ three_rows) ->
        (length outlets < 3)%nat).
Proof.
  apply (setup_platform_ignore_unnamed_count (default_config true)
           empty_store three_rows).
  - reflexivity.
  - reflexivity.
  - reflexivity.
Defined.

(** With [three_rows] and [ignore_unnamed_outlets] the set-up registers
    two entities, those of outlets 1 and 3. *)
Example setup_platform_three_rows :
  added (world (setup_platform (default_config true) empty_store).2)
  = [[relay 1 (PyStr "lamp") (PyStr "ON"); relay 3 (PyStr "") (PyStr "ON")]].
Proof. reflexivity. Qed.

(** ** The entity *)

(** [update] goes through when the refresh of the parent device returns
    and the snapshot it leaves has a row for the outlet. *)
Lemma DINRelay_update_Return self now st st1 d1 l row :
  DINRelayDevice_update (_parent_device self) now st = (Return tt, st1) ->
  devices st1 !! _parent_device self = Some d1 ->
  _statuslist d1 = Some l ->
  getitem l (_outlet_number self - 1) = Return row ->
  DINRelay_update self now st = (Return (updated self row), st1).
Proof.
  intros Hup Hd Hl Hrow. unfold DINRelay_update.
  rewrite (bind_Return _ _ _ _ _ Hup).
  erewrite bind_Return; [done|].
  by rewrite (get_outlet_status_run _ _ _ _ _ Hd Hl), Hrow.
Qed.

(** An error of the refresh is an error of [update]. *)
Lemma DINRelay_update_Raise self now st st1 e :
  DINRelayDevice_update (_parent_device self) now st = (Raise e, st1) ->
  DINRelay_update self now st = (Raise e, st1).
Proof. intros Hup. by apply bind_Raise. Qed.

Lemma py_eq_true a b : py_eq a b = true <-> a = b.
Proof. apply bool_decide_eq_true. Qed.

Lemma py_or_falsy a b : truthy a = false -> py_or a b = b.
Proof. intros H. unfold py_or. by rewrite H. Qed.

Lemma py_or_truthy a b : truthy a = true -> py_or a b = a.
Proof. intros H. unfold py_or. by rewrite H. Qed.

(** ** Commands *)

(** C5: for every entity and either command, [turn_on] and [turn_off] call
    [on()] and [off()] of the entity's outlet at once, whatever the time
    of the last fetch: one command is recorded, with that outlet and that
    polarity, and the method raises exactly when the command does.
    Nothing that is cached changes: the entity is left as it was, with its
    [_state], its [_name] and what [is_on] answers; the device objects,
    with their [_statuslist] and the time of the last fetch, are as
    before; and no status query is issued. *)
Theorem turn_on_off_frame (self : DINRelay) (on : bool) (st : State) :
  let method := if on then DINRelay_turn_on else DINRelay_turn_off in
  exists st',
    method self st
    = (match outlet_reply (world st) (length (outlet_calls (world st))) with
       | Return _ => Return self
       | Raise e => Raise e
       end, st')
    /\ (forall self', (method self st).1 = Return self' ->
         _state self' = _state self
         /\ _name self' = _name self
         /\ DINRelay_is_on self' = DINRelay_is_on self)
    /\ outlet_calls (world st')
       = (outlet_calls (world st) ++ [(_outlet self, on)])%list
    /\ devices st' = devices st
    /\ statuslist_calls (world st') = statuslist_calls (world st)
    /\ statuslist_reply (world st') = statuslist_reply (world st)
    /\ added (world st') = added (world st)
    /\ errors (world st') = errors (world st).
Proof.
  intros method.
  exists {| devices := devices st;
            world := set_outlet_calls
                       (outlet_calls (world st) ++ [(_outlet self, on)])
                       (world st) |}.
  assert (method self st
          = (match outlet_reply (world st)
                     (length (outlet_calls (world st))) with
             | Return _ => Return self
             | Raise e => Raise e
             end,
             {| devices := devices st;
                world := set_outlet_calls
                           (outlet_calls (world st) ++ [(_outlet self, on)])
                           (world st) |})) as Hrun.
  { subst method.
    destruct on; unfold DINRelay_turn_on, DINRelay_turn_off, Outlet_on,
      Outlet_off, Outlet_set, mbind, M_bind;
      by destruct (outlet_reply _ _). }
  split; [done|]. split; [|done].
  intros self'. rewrite Hrun. simpl.
  destruct (outlet_reply _ _); [|done]. by intros [= <-].
Qed.

(** X13: after a command, an [update] within the interval still reads the
    cached snapshot: the new state of the outlet shows only once a later
    refresh has fetched it. *)
Lemma turn_on_then_update_is_stale self st st' d l row now t :
  (DINRelay_turn_on self st).2 = st' ->
  devices st !! _parent_device self = Some d ->
  lastFetchTime d = Some t ->
  now - t < MIN_TIME_BETWEEN_UPDATES ->
  _statuslist d = Some l ->
  getitem l (_outlet_number self - 1) = Return row ->
  DINRelay_update self now st' = (Return (updated self row), st').
Proof.
  intros <- Hd Ht Hlt Hl Hrow.
  assert (devices (DINRelay_turn_on self st).2 = devices st) as Hdev.
  { unfold DINRelay_turn_on, Outlet_on, Outlet_set, mbind, M_bind.
    by destruct (outlet_reply _ _). }
  rewrite <- Hdev in Hd.
  eapply DINRelay_update_Return; [|exact Hd|exact Hl|exact Hrow].
  eapply update_throttled; [exact Hd|].
  rewrite Ht. by apply throttled_after_fetch.
Qed.

(** ** One device for all its outlets *)

(** X12: two entities of one device that are updated within the interval
    share one status query: the second reads the snapshot the first
    fetched. *)
Lemma two_entities_one_query e1 e2 st d t1 t2 l row1 row2 :
  _parent_device e2 = _parent_device e1 ->
  devices st !! _parent_device e1 = Some d ->
  Throttle.throttled MIN_TIME_BETWEEN_UPDATES (lastFetchTime d) t1 = false ->
  next_reply st = Return l ->
  t2 - t1 < MIN_TIME_BETWEEN_UPDATES ->
  getitem l (_outlet_number e1 - 1) = Return row1 ->
  getitem l (_outlet_number e2 - 1) = Return row2 ->
  exists st1,
    DINRelay_update e1 t1 st = (Return (updated e1 row1), st1)
    /\ DINRelay_update e2 t2 st1 = (Return (updated e2 row2), st1)
    /\ statuslist_calls (world st1) = S (statuslist_calls (world st)).
Proof.
  intros Hsame Hd Ht Hl Hlt Hrow1 Hrow2.
  pose proof (lookup_lt_Some _ _ _ Hd) as Hlen.
  set (st1 := {| devices := <[_parent_device e1 := refreshed t1 l d]>
                              (devices st);
                 world := world (count_query st) |}).
  assert (devices st1 !! _parent_device e1 = Some (refreshed t1 l d)) as Hd1
    by by apply list_lookup_insert_eq.
  exists st1. split; [|split; [|done]].
  - eapply DINRelay_update_Return; [|exact Hd1|done|exact Hrow1].
    by apply update_fetched.
  - rewrite <- Hsame in Hd1.
    eapply DINRelay_update_Return; [|exact Hd1|done|exact Hrow2].
    eapply update_throttled; [exact Hd1|].
    by apply throttled_after_fetch.
Qed.

(** ** On and off *)

(** C9: for every raw state value [v] that the device reports for an
    outlet, [is_on] is true exactly when [v] is the string ["ON"], and
    false for every other value, [None] included: for the entity built at
    set-up from a row with state [v], and for the entity after any
    [update] that read a row with state [v]. *)
Theorem is_on_iff_ON (v : value) :
  (forall controller_name parent_device outlet,
     state outlet = v ->
     DINRelay_is_on (DINRelay__init__ controller_name parent_device outlet)
     = true <-> v = PyStr "ON")
  /\ (forall controller_name parent_device outlet_number description,
        DINRelay_is_on
          (setup_entity controller_name parent_device outlet_number
             description v) = true <-> v = PyStr "ON")
  /\ (forall self now st st1 d1 l k description,
        DINRelayDevice_update (_parent_device self) now st
        = (Return tt, st1) ->
        devices st1 !! _parent_device self = Some d1 ->
        _statuslist d1 = Some l ->
        getitem l (_outlet_number self - 1) = Return (k, description, v) ->
        exists self',
          DINRelay_update self now st = (Return self', st1)
          /\ (DINRelay_is_on self' = true <-> v = PyStr "ON")).
Proof.
  split; [|split].
  - intros c p outlet <-. apply py_eq_true.
  - intros c p n d. apply py_eq_true.
  - intros self now st st1 d1 l k d Hup Hd Hl Hrow.
    eexists. split; [by eapply DINRelay_update_Return|].
    apply py_eq_true.
Qed.

Lemma is_on_iff_ON_witness :
  exists self',
    DINRelay_update (relay 2 (PyStr "2") (PyStr "ON")) 0
      (new_store (fun _ => Return three_rows))
    = (Return self',
       (DINRelayDevice_update 0%nat 0
          (new_store (fun _ => Return three_rows))).2)
    /\ (DINRelay_is_on self' = true <-> PyStr "OFF" = PyStr "ON").
Proof.
  apply (proj2 (proj2 (is_on_iff_ON (PyStr "OFF")))
           (relay 2 (PyStr "2") (PyStr "ON")) 0
           (new_store (fun _ => Return three_rows))
           (DINRelayDevice_update 0%nat 0
              (new_store (fun _ => Return three_rows))).2
           (refreshed 0 three_rows
              (DINRelayDevice__init__ relay_switch "10.0.0.2"))
           three_rows 2 PyNone).
  - reflexivity.
  - reflexivity.
  - reflexivity.
  - reflexivity.
Defined.

(** Values that are not the string ["ON"] read as off. *)
Example is_on_other_values :
  map (fun v => DINRelay_is_on (relay 1 (PyStr "lamp") v))
      [PyStr "ON"; PyStr "OFF"; PyStr "on"; PyStr "On"; PyStr "1";
       PyStr ""; PyStr " ON"; PyNone]
  = [true; false; false; false; false; false; false; false].
Proof. reflexivity. Qed.

(** ** Names *)

Lemma registered_not_ignoring c p row :
  registered c p false row = Some (row_entity c p row).
Proof. by destruct row as [[n [|d]] s]. Qed.

Lemma registered_described c p ign n d s :
  is_None d = false ->
  registered c p ign (n, d, s) = Some (setup_entity c p n d s).
Proof. intros Hd. simpl. by rewrite Hd. Qed.

Lemma setup_outlets_not_ignoring config k l :
  conf_ignore_unnamed_outlets config = false ->
  setup_outlets config k l = row_entity (conf_name config) k <$> l.
Proof.
  intros Hign. unfold setup_outlets. rewrite Hign.
  apply omap_total. intros row _. apply registered_not_ignoring.
Qed.

(** The display name is the controller name, an underscore and what
    [_name] holds; the unique id is the host name of the parent device,
    an underscore and the outlet number. *)
Lemma DINRelay_name_format self :
  DINRelay_name self = _controller_name self +:+ "_" +:+ format (_name self).
Proof. done. Qed.

Lemma DINRelay_unique_id_run self st d :
  devices st !! _parent_device self = Some d ->
  DINRelay_unique_id self st
  = (Return (hostname d +:+ "_" +:+ str (_outlet_number self)), st).
Proof.
  intros Hd. unfold DINRelay_unique_id. by read_attr Hd.
Qed.

(** C8: for every outlet without a description, what stands for the
    description is [str] of the outlet number, in the entity registered by
    the set-up and in the entity after every [update] that reads such a
    row; the display name of the entity is the controller name, an
    underscore and that string, and its unique id is the host name, an
    underscore and the outlet number.  The last part says the same of
    every entity a set-up registers, described or not, whatever
    [ignore_unnamed_outlets] is: its display name ends with the
    description, or with [str] of the outlet number when there is none. *)
Theorem absent_description_shows_number :
  (forall config st l i n s,
     conf_ignore_unnamed_outlets config = false ->
     verify_reply (world st) = Return true ->
     next_reply st = Return l ->
     l !! i = Some (n, PyNone, s) ->
     exists st' outlets e,
       setup_platform config st = (Return None, st')
       /\ added (world st') = (added (world st) ++ [outlets])%list
       /\ outlets !! i = Some e
       /\ _outlet_number e = n
       /\ _name e = PyStr (str n)
       /\ DINRelay_name e = conf_name config +:+ "_" +:+ str n
       /\ DINRelay_unique_id e st'
          = (Return (conf_host config +:+ "_" +:+ str n), st'))
  /\ (forall self now st st1 d1 l k s,
        DINRelayDevice_update (_parent_device self) now st
        = (Return tt, st1) ->
        devices st1 !! _parent_device self = Some d1 ->
        _statuslist d1 = Some l ->
        getitem l (_outlet_number self - 1) = Return (k, PyNone, s) ->
        exists self',
          DINRelay_update self now st = (Return self', st1)
          /\ _outlet_number self' = _outlet_number self
          /\ _name self' = PyStr (str (_outlet_number self))
          /\ DINRelay_name self'
             = _controller_name self +:+ "_" +:+ str (_outlet_number self)
          /\ DINRelay_unique_id self' st1
             = (Return (hostname d1 +:+ "_" +:+ str (_outlet_number self)),
                st1))
  /\ (forall config st l,
        verify_reply (world st) = Return true ->
        next_reply st = Return l ->
        exists st' outlets,
          setup_platform config st = (Return None, st')
          /\ added (world st') = (added (world st) ++ [outlets])%list
          /\ forall e, e ∈ outlets ->
               exists n d s,
                 (n, d, s) ∈ l
                 /\ _outlet_number e = n
                 /\ _name e = (if is_None d then PyStr (str n) else d)
                 /\ DINRelay_name e
                    = conf_name config +:+ "_"
                      +:+ format (if is_None d then PyStr (str n) else d)
                 /\ DINRelay_unique_id e st'
                    = (Return (conf_host config +:+ "_" +:+ str n), st')).
Proof.
  split; [|split].
  - intros config st l i n s Hign Hv Hl Hi.
    exists (set_up config l st),
      (setup_outlets config (length (devices st)) l),
      (row_entity (conf_name config) (length (devices st)) (n, PyNone, s)).
    split; [by apply setup_platform_set_up|]. split; [done|].
    split.
    { rewrite setup_outlets_not_ignoring by done.
      rewrite list_lookup_fmap.
      exact (f_equal (fmap (row_entity _ _)) Hi). }
    repeat split.
    apply (DINRelay_unique_id_run
             (row_entity (conf_name config) (length (devices st))
                (n, PyNone, s))
             (set_up config l st) (setup_device config)).
    apply set_up_device.
  - intros self now st st1 d1 l k s Hup Hd Hl Hrow.
    exists (updated self (k, PyNone, s)).
    split; [by eapply DINRelay_update_Return|]. repeat split.
    by apply (DINRelay_unique_id_run (updated self (k, PyNone, s))).
  - intros config st l Hv Hl.
    exists (set_up config l st),
      (setup_outlets config (length (devices st)) l).
    split; [by apply setup_platform_set_up|]. split; [done|].
    intros e [[[n d] s] [Hin He]]%list_elem_of_omap.
    exists n, d, s. split; [done|].
    assert (e = setup_entity (conf_name config) (length (devices st)) n
                  (if is_None d then PyStr (str n) else d) s) as ->.
    { simpl in He. destruct (is_None d), (conf_ignore_unnamed_outlets config);
        by simplify_eq. }
    repeat split.
    exact (DINRelay_unique_id_run
             (setup_entity (conf_name config) (length (devices st)) n
                (if is_None d then PyStr (str n) else d) s)
             (set_up config l st) (setup_device config)
             (set_up_device config l st)).
Qed.

Lemma absent_description_shows_number_witness :
  exists st' outlets e,
    setup_platform (default_config false) empty_store = (Return None, st')
    /\ added (world st') = ([] ++ [outlets])%list
    /\ outlets !! 1%nat = Some e
    /\ _outlet_number e = 2
    /\ _name e = PyStr "2"
    /\ DINRelay_name e = "DINRelay_2"
    /\ DINRelay_unique_id e st' = (Return "10.0.0.2_2", st').
Proof.
  apply (proj1 absent_description_shows_number (default_config false)
           empty_store three_rows 1%nat 2 (PyStr "OFF")).
  - reflexivity.
  - reflexivity.
  - reflexivity.
  - reflexivity.
Defined.

(** The same outlet after its first [update]. *)
Example absent_description_after_update :
  let st := new_store (fun _ => Return three_rows) in
  let run := DINRelay_update (relay 2 (PyStr "2") (PyStr "ON")) 0 st in
  exists e',
    run.1 = Return e'
    /\ DINRelay_name e' = "DINRelay_2"
    /\ DINRelay_is_on e' = false
    /\ DINRelay_unique_id e' run.2 = (Return "10.0.0.2_2", run.2).
Proof. eexists. repeat split. Qed.

(** ** The empty description *)

Lemma setup_loop_with_omap Outlet_init c p ign l outlets :
  setup_loop_with Outlet_init c p ign l outlets
  = (outlets ++ omap (registered_with Outlet_init c p ign) l)%list.
Proof.
  revert outlets. induction l as [|[[n d] s] l IH]; intros outlets; csimpl.
  - by rewrite app_nil_r.
  - destruct (is_None d), ign; csimpl; rewrite IH, <- ?app_assoc; done.
Qed.

Lemma setup_platform_with_set_up Outlet_init config st l :
  verify_reply (world st) = Return true ->
  next_reply st = Return l ->
  setup_platform_with Outlet_init config st
  = (Return None,
     {| devices := devices st ++ [setup_device config];
        world := set_added
                   (added (world st)
                    ++ [omap (registered_with Outlet_init (conf_name config)
                                (length (devices st))
                                (conf_ignore_unnamed_outlets config)) l])
                   (world (count_query st)) |}).
Proof.
  intros Hv Hl.
  unfold setup_platform_with, mbind, M_bind, PowerSwitch_verify. rewrite Hv.
  unfold next_reply in Hl. simpl. rewrite Hl. simpl.
  by rewrite setup_loop_with_omap.
Qed.

(** With the class that keeps the arguments of its constructor, this is the
    set-up of the sections above. *)
Lemma setup_loop_with_dlipower_Outlet c p ign l outlets :
  setup_loop_with dlipower_Outlet c p ign l outlets
  = setup_loop c p ign l outlets.
Proof.
  revert outlets. induction l as [|[[n d] s] l IH]; intros outlets; simpl.
  - done.
  - destruct (is_None d), ign; by rewrite IH.
Qed.

Lemma setup_platform_with_dlipower_Outlet config st :
  setup_platform_with dlipower_Outlet config st = setup_platform config st.
Proof.
  unfold setup_platform_with, setup_platform, mbind, M_bind,
    PowerSwitch_verify.
  destruct (verify_reply (world st)) as [[]|e]; simpl; try done.
  destruct (statuslist_reply _ _) as [l|e]; simpl; [|done].
  by rewrite setup_loop_with_dlipower_Outlet.
Qed.

(** C10, as stated, fails: what name the set-up gives to an outlet whose
    description is the empty string is decided by the [Outlet] class of the
    device library, to which the empty string is handed.  With a class
    whose constructor replaces a falsy description by [str] of the outlet
    number, the entity of outlet 3 is registered with the name ["3"], not
    the empty string, and its display name after the first [update] is
    what it was before. *)
Lemma empty_description_named_by_Outlet :
  let e := setup_entity_with Outlet_naming_itself "DINRelay" 0%nat 3
             (PyStr "") (PyStr "ON") in
  let st' :=
    (setup_platform_with Outlet_naming_itself (default_config true)
       empty_store).2 in
  let run := DINRelay_update e (timedelta_seconds 30) st' in
  (exists outlets, added (world st') = [outlets] /\ e ∈ outlets)
  /\ _name e = PyStr "3"
  /\ _name e <> PyStr ""
  /\ DINRelay_name e = "DINRelay_3"
  /\ exists e',
       run.1 = Return e'
       /\ _name e' = PyStr "3"
       /\ DINRelay_name e' = DINRelay_name e.
Proof.
  split.
  { eexists. split; [reflexivity|]. right. left. }
  repeat split; [discriminate|].
  eexists. repeat split.
Qed.

(** C10 (amended): an outlet whose description is the empty string is
    registered by the set-up whatever [ignore_unnamed_outlets] says, and
    the empty string is handed as it is to the constructor of
    [dlipower.Outlet], since only a description that is [None] is skipped
    or replaced; the [_name] of the entity is the description of the
    object so built.  An [update] that reads a row whose description is
    falsy, the empty string or [None], puts [str] of the outlet number in
    its place.  So the display name is the same after that update exactly
    when the [Outlet] object showed [str] of the outlet number already:
    it changes when the object kept the empty description. *)
Theorem empty_description_name_by_Outlet (Outlet_init : Outlet_class)
    config st l n s :
  verify_reply (world st) = Return true ->
  next_reply st = Return l ->
  (n, PyStr "", s) ∈ l ->
  let outlet := Outlet_init (length (devices st)) n (PyStr "") s in
  let e := DINRelay__init__ (conf_name config) (length (devices st)) outlet in
  (exists st' outlets,
     setup_platform_with Outlet_init config st = (Return None, st')
     /\ added (world st') = (added (world st) ++ [outlets])%list
     /\ e ∈ outlets)
  /\ _name e = description outlet
  /\ DINRelay_name e = conf_name config +:+ "_" +:+ format (description outlet)
  /\ forall now st2 st3 d3 l3 k d s3,
       DINRelayDevice_update (_parent_device e) now st2
       = (Return tt, st3) ->
       devices st3 !! _parent_device e = Some d3 ->
       _statuslist d3 = Some l3 ->
       getitem l3 (_outlet_number e - 1) = Return (k, d, s3) ->
       truthy d = false ->
       exists e',
         DINRelay_update e now st2 = (Return e', st3)
         /\ _name e' = PyStr (str (_outlet_number e))
         /\ (DINRelay_name e' = DINRelay_name e
             <-> format (description outlet) = str (_outlet_number e))
         /\ (description outlet = PyStr "" ->
             DINRelay_name e' <> DINRelay_name e).
Proof.
  intros Hv Hl Hin outlet e. split.
  { eexists _, _. split; [by apply setup_platform_with_set_up|].
    split; [done|]. apply list_elem_of_omap. by exists (n, PyStr "", s). }
  repeat split.
  intros now st2 st3 d3 l3 k d s3 Hup Hd Hl3 Hrow Hd_falsy.
  exists (updated e (k, d, s3)).
  split; [by eapply DINRelay_update_Return|].
  assert (_name (updated e (k, d, s3)) = PyStr (str (_outlet_number e)))
    as Hname by by apply py_or_falsy.
  split; [done|].
  assert (DINRelay_name (updated e (k, d, s3)) = DINRelay_name e
          <-> format (description outlet) = str (_outlet_number e)) as Hiff.
  { rewrite !DINRelay_name_format, Hname. simpl. split.
    - by intros Heq%append_inj_r%append_inj_r.
    - by intros ->. }
  split; [done|].
  intros Hkept Heq%Hiff. rewrite Hkept in Heq.
  by apply (str_nonempty (_outlet_number e)).
Qed.

Lemma empty_description_name_by_Outlet_witness :
  exists e',
    DINRelay_update (relay 3 (PyStr "") (PyStr "ON")) (timedelta_seconds 30)
      (set_up_store true)
    = (Return e',
       (DINRelayDevice_update 0%nat (timedelta_seconds 30)
          (set_up_store true)).2)
    /\ _name e' = PyStr "3"
    /\ (DINRelay_name e' = DINRelay_name (relay 3 (PyStr "") (PyStr "ON"))
        <-> "" = "3")
    /\ (PyStr "" = PyStr "" ->
        DINRelay_name e' <> DINRelay_name (relay 3 (PyStr "") (PyStr "ON"))).
Proof.
  apply (proj2 (proj2 (proj2
           (empty_description_name_by_Outlet dlipower_Outlet
              (default_config true) empty_store three_rows 3 (PyStr "ON")
              eq_refl eq_refl ltac:(do 2 right; left))))
           (timedelta_seconds 30) (set_up_store true)
           (DINRelayDevice_update 0%nat (timedelta_seconds 30)
              (set_up_store true)).2
           (refreshed (timedelta_seconds 30) three_rows
              (setup_device (default_config true)))
           three_rows 3 (PyStr "") (PyStr "ON")).
  - reflexivity.
  - reflexivity.
  - reflexivity.
  - reflexivity.
  - reflexivity.
Defined.

(** * Further properties of the module *)

(** ** Which row an outlet number reads *)

(** X1: [get_outlet_status] reads the cached list by position.  Outlet
    numbers from 1 to the length of the list read the rows in order;
    numbers from [1 - len] to 0 count from the end of the list, so that 0
    reads the last row; every other number ends in [IndexError].  The
    store is never changed. *)
Theorem get_outlet_status_by_position st self d l n :
  devices st !! self = Some d ->
  _statuslist d = Some l ->
  let len := Z.of_nat (length l) in
  (1 <= n <= len ->
   exists row,
     l !! Z.to_nat (n - 1) = Some row
     /\ DINRelayDevice_get_outlet_status self n st = (Return row, st))
  /\ (1 - len <= n <= 0 ->
      exists row,
        l !! Z.to_nat (len + n - 1) = Some row
        /\ DINRelayDevice_get_outlet_status self n st = (Return row, st))
  /\ (n < 1 - len \/ len < n ->
      DINRelayDevice_get_outlet_status self n st = (Raise IndexError, st)).
Proof.
  intros Hd Hl len. subst len.
  rewrite (get_outlet_status_run _ _ _ _ _ Hd Hl).
  split; [|split].
  - intros Hn.
    destruct (lookup_lt_is_Some_2 l (Z.to_nat (n - 1))) as [row Hrow];
      [lia|].
    exists row. split; [done|].
    rewrite (getitem_in_range l (n - 1) row); [done|lia|done].
  - intros Hn.
    destruct (lookup_lt_is_Some_2 l
                (Z.to_nat (Z.of_nat (length l) + n - 1))) as [row Hrow];
      [lia|].
    exists row. split; [done|].
    rewrite (getitem_negative l (n - 1) row); [done|lia|].
    by replace (n - 1 + Z.of_nat (length l))
      with (Z.of_nat (length l) + n - 1) by lia.
  - intros [Hn|Hn].
    + unfold getitem. cbv zeta.
      rewrite (bool_decide_eq_true_2 (n - 1 < 0)) by lia.
      by rewrite bool_decide_eq_false_2 by lia.
    + by rewrite getitem_beyond by lia.
Qed.

Lemma get_outlet_status_by_position_witness :
  (exists row,
     three_rows !! 0%nat = Some row
     /\ DINRelayDevice_get_outlet_status 0%nat 1 fetched_store
        = (Return row, fetched_store))
  /\ (exists row,
        three_rows !! 2%nat = Some row
        /\ DINRelayDevice_get_outlet_status 0%nat 0 fetched_store
           = (Return row, fetched_store))
  /\ DINRelayDevice_get_outlet_status 0%nat 4 fetched_store
     = (Raise IndexError, fetched_store)
  /\ DINRelayDevice_get_outlet_status 0%nat (-3) fetched_store
     = (Raise IndexError, fetched_store).
Proof.
  pose (d := refreshed 0 three_rows
               (DINRelayDevice__init__ relay_switch "10.0.0.2")).
  split; [|split; [|split]].
  - apply (proj1 (get_outlet_status_by_position fetched_store 0%nat d
                    three_rows 1 eq_refl eq_refl)).
    simpl. lia.
  - apply (proj1 (proj2 (get_outlet_status_by_position fetched_store 0%nat d
                           three_rows 0 eq_refl eq_refl))).
    simpl. lia.
  - apply (proj2 (proj2 (get_outlet_status_by_position fetched_store 0%nat d
                           three_rows 4 eq_refl eq_refl))).
    simpl. lia.
  - apply (proj2 (proj2 (get_outlet_status_by_position fetched_store 0%nat d
                           three_rows (-3) eq_refl eq_refl))).
    simpl. lia.
Defined.

(** ** What the set-up leaves behind *)

Lemma setup_platform_query_raises config st e :
  verify_reply (world st) = Return true ->
  next_reply st = Raise e ->
  setup_platform config st
  = (Raise e,
     {| devices := devices st ++ [setup_device config];
        world := world (count_query st) |}).
Proof.
  intros Hv He.
  unfold setup_platform, mbind, M_bind, PowerSwitch_verify. rewrite Hv.
  unfold next_reply in He. simpl. by rewrite He.
Qed.

(** X2: the status list that [setup_platform] fetches to build the
    entities is not kept in the device it creates.  After a set-up that
    went through, one query has been issued, the new device has no
    snapshot, [get_outlet_status] on it raises [TypeError] for every outlet
    number, and the first refresh of the device, at whatever time, issues
    a second query. *)
Theorem setup_platform_keeps_no_snapshot config st l :
  verify_reply (world st) = Return true ->
  next_reply st = Return l ->
  exists st',
    setup_platform config st = (Return None, st')
    /\ statuslist_calls (world st') = S (statuslist_calls (world st))
    /\ devices st' !! length (devices st)
       = Some (DINRelayDevice__init__
                 (dlipower_PowerSwitch (conf_host config)
                    (conf_username config) (conf_password config)
                    (conf_timeout config) (conf_cycletime config))
                 (conf_host config))
    /\ (forall n,
          DINRelayDevice_get_outlet_status (length (devices st)) n st'
          = (Raise TypeError, st'))
    /\ (forall now,
          statuslist_calls
            (world (DINRelayDevice_update (length (devices st)) now st').2)
          = S (S (statuslist_calls (world st)))).
Proof.
  intros Hv Hl. exists (set_up config l st).
  pose proof (set_up_device config l st) as Hd.
  split; [by apply setup_platform_set_up|]. split; [done|].
  split; [done|]. split.
  - intros n. by eapply get_outlet_status_no_snapshot.
  - intros now.
    destruct (next_reply (set_up config l st)) as [l2|e2] eqn:Hr.
    + by rewrite (update_fetched _ _ _ now _ Hd eq_refl Hr).
    + by rewrite (update_failed _ _ _ now _ Hd eq_refl Hr).
Qed.

Lemma setup_platform_keeps_no_snapshot_witness :
  exists st',
    setup_platform (default_config false) empty_store = (Return None, st')
    /\ statuslist_calls (world st') = 1%nat
    /\ devices st' !! 0%nat = Some (setup_device (default_config false))
    /\ (forall n,
          DINRelayDevice_get_outlet_status 0%nat n st'
          = (Raise TypeError, st'))
    /\ (forall now,
          statuslist_calls (world (DINRelayDevice_update 0%nat now st').2)
          = 2%nat).
Proof.
  apply (setup_platform_keeps_no_snapshot (default_config false) empty_store
           three_rows).
  - reflexivity.
  - reflexivity.
Defined.

(** X3: an exception of [power_switch.verify()] or of
    [power_switch.statuslist()] during the set-up leaves [setup_platform]
    as it is: it is neither caught nor logged, [add_entities] is not
    called, and no command is sent. *)
Theorem setup_platform_error_propagates config st e :
  verify_reply (world st) = Raise e
  \/ (verify_reply (world st) = Return true /\ next_reply st = Raise e) ->
  exists st',
    setup_platform config st = (Raise e, st')
    /\ added (world st') = added (world st)
    /\ errors (world st') = errors (world st)
    /\ outlet_calls (world st') = outlet_calls (world st).
Proof.
  intros [Hv|[Hv He]].
  - exists st. split; [by apply setup_platform_raises|done].
  - eexists. split; [by apply setup_platform_query_raises|done].
Qed.

Lemma setup_platform_error_propagates_witness :
  exists st',
    setup_platform (default_config false)
      {| devices := [];
         world := world_of (fun _ => Raise "CommunicationError") |}
    = (Raise "CommunicationError", st')
    /\ added (world st') = []
    /\ errors (world st') = []
    /\ outlet_calls (world st') = [].
Proof.
  apply (setup_platform_error_propagates (default_config false)
           {| devices := [];
              world := world_of (fun _ => Raise "CommunicationError") |}
           "CommunicationError").
  right. split; reflexivity.
Defined.

(** ** The entities of a set-up *)

Lemma registered_kept c p ign row :
  kept ign row = true ->
  exists e,
    registered c p ign row = Some e
    /\ _outlet_number e = row.1.1
    /\ _parent_device e = p
    /\ switch (_outlet e) = p
    /\ outlet_number (_outlet e) = _outlet_number e
    /\ _controller_name e = c
    /\ _name e <> PyNone.
Proof.
  destruct row as [[n [|d]] s], ign; try done; intros _; eexists;
    (split; [reflexivity|]); repeat split; done.
Qed.

Lemma registered_not_kept c p ign row :
  kept ign row = false -> registered c p ign row = None.
Proof. by destruct row as [[n [|d]] s], ign. Qed.

Lemma registered_numbers c p ign (l : list outlet_status) :
  _outlet_number <$> omap (registered c p ign) l
  = (fun row : outlet_status => row.1.1)
      <$> filter (fun row => kept ign row = true) l.
Proof.
  induction l as [|row l IH]; [done|]. csimpl. rewrite filter_cons.
  destruct (kept ign row) eqn:Hk.
  - destruct (registered_kept c p ign row Hk) as (e & -> & Hn & _).
    rewrite decide_True by done. csimpl. by rewrite IH, Hn.
  - rewrite (registered_not_kept c p ign row Hk).
    by rewrite decide_False by done.
Qed.

(** X4: a set-up that goes through hands [add_entities] one entity for
    each row it keeps, in the order of the status list and with the outlet
    number of the row: all rows when [ignore_unnamed_outlets] is false,
    the rows that have a description when it is true.  Every entity
    refers to the one device created by this set-up, its outlet object
    carries the same outlet number and the same device, and its [_name] is
    never [None]. *)
Theorem setup_platform_registers_kept_rows config st l :
  verify_reply (world st) = Return true ->
  next_reply st = Return l ->
  exists st' outlets,
    setup_platform config st = (Return None, st')
    /\ added (world st') = (added (world st) ++ [outlets])%list
    /\ _outlet_number <$> outlets
       = (fun row : outlet_status => row.1.1)
           <$> filter
                 (fun row => kept (conf_ignore_unnamed_outlets config) row
                             = true) l
    /\ (conf_ignore_unnamed_outlets config = false ->
        length outlets = length l)
    /\ Forall (fun e =>
                 _parent_device e = length (devices st)
                 /\ switch (_outlet e) = length (devices st)
                 /\ outlet_number (_outlet e) = _outlet_number e
                 /\ _controller_name e = conf_name config
                 /\ _name e <> PyNone) outlets.
Proof.
  intros Hv Hl.
  exists (set_up config l st), (setup_outlets config (length (devices st)) l).
  split; [by apply setup_platform_set_up|]. split; [done|].
  split; [apply registered_numbers|]. split.
  - intros Hign. rewrite setup_outlets_not_ignoring by done.
    apply length_fmap.
  - apply Forall_forall. intros e [row [Hin He]]%list_elem_of_omap.
    destruct (kept (conf_ignore_unnamed_outlets config) row) eqn:Hk.
    + destruct (registered_kept (conf_name config) (length (devices st))
                  _ row Hk) as (e' & He' & _ & Hrest).
      rewrite He in He'. by injection He' as <-.
    + by rewrite registered_not_kept in He.
Qed.

Lemma setup_platform_registers_kept_rows_witness :
  exists st' outlets,
    setup_platform (default_config true) empty_store = (Return None, st')
    /\ added (world st') = ([] ++ [outlets])%list
    /\ _outlet_number <$> outlets = [1; 3]
    /\ (true = false -> length outlets = 3%nat)
    /\ Forall (fun e =>
                 _parent_device e = 0%nat
                 /\ switch (_outlet e) = 0%nat
                 /\ outlet_number (_outlet e) = _outlet_number e
                 /\ _controller_name e = "DINRelay"
                 /\ _name e <> PyNone) outlets.
Proof.
  apply (setup_platform_registers_kept_rows (default_config true) empty_store
           three_rows).
  - reflexivity.
  - reflexivity.
Defined.

(** ** Unique ids *)

Lemma pretty_N_char_not_underscore x :
  bool_decide (pretty_N_char x = "_"%char) = false.
Proof.
  apply bool_decide_eq_false_2. unfold pretty_N_char.
  by repeat case_match.
Qed.

Lemma occurs_pretty_N_go x s :
  occurs "_"%char (pretty_N_go x s) = occurs "_"%char s.
Proof.
  revert s. induction (N.lt_wf_0 x) as [x _ IH]; intros s.
  destruct (decide (x = 0)%N) as [->|Hx].
  - by rewrite pretty_N_go_0.
  - rewrite pretty_N_go_step by lia. rewrite IH by (apply N.div_lt; lia).
    simpl. by rewrite pretty_N_char_not_underscore.
Qed.

Lemma occurs_pretty_positive (p : positive) : occurs "_"%char (pretty p) = false.
Proof.
  unfold pretty, pretty_positive, pretty, pretty_N.
  case_decide; [done|]. apply occurs_pretty_N_go.
Qed.

(** [str(n)] holds no underscore. *)
Lemma occurs_str n : occurs "_"%char (str n) = false.
Proof.
  unfold str, pretty, pretty_Z. destruct n as [|p|p]; [done| |].
  - apply occurs_pretty_positive.
  - simpl. apply occurs_pretty_positive.
Qed.

Lemma append_nil_l s : "" +:+ s = s.
Proof. done. Qed.

Lemma append_cons_l c s t : String c s +:+ t = String c (s +:+ t).
Proof. done. Qed.

Lemma occurs_after_underscore a b :
  occurs "_"%char (a +:+ String "_"%char b) = true.
Proof.
  induction a as [|c a IH]; rewrite ?append_cons_l, ?append_nil_l; simpl.
  - done.
  - rewrite IH. apply orb_true_r.
Qed.

(** A string splits in one way at its last underscore. *)
Lemma underscore_split a b c d :
  occurs "_"%char b = false ->
  occurs "_"%char d = false ->
  a +:+ "_" +:+ b = c +:+ "_" +:+ d ->
  a = c /\ b = d.
Proof.
  intros Hb Hd. revert c.
  induction a as [|x a IH]; intros [|y c] Heq;
    rewrite ?append_cons_l, ?append_nil_l in Heq.
  - by injection Heq as ->.
  - injection Heq as <- ->.
    by rewrite occurs_after_underscore in Hb.
  - injection Heq as -> <-.
    by rewrite occurs_after_underscore in Hd.
  - injection Heq as -> Heq. by destruct (IH _ Heq) as [-> ->].
Qed.

(** X5: the unique id tells entities apart: two entities have the same
    [unique_id] exactly when their parent devices have the same host name
    and their outlet numbers are equal, whatever characters the host names
    hold. *)
Theorem unique_id_injective e1 e2 st d1 d2 :
  devices st !! _parent_device e1 = Some d1 ->
  devices st !! _parent_device e2 = Some d2 ->
  (DINRelay_unique_id e1 st).1 = (DINRelay_unique_id e2 st).1
  <-> hostname d1 = hostname d2 /\ _outlet_number e1 = _outlet_number e2.
Proof.
  intros Hd1 Hd2.
  rewrite (DINRelay_unique_id_run _ _ _ Hd1),
    (DINRelay_unique_id_run _ _ _ Hd2). simpl.
  split.
  - intros [= Heq].
    apply underscore_split in Heq as [Hh Hn]; [|apply occurs_str..].
    split; [done|]. by apply (inj pretty).
  - by intros [-> ->].
Qed.

Lemma unique_id_injective_witness :
  (DINRelay_unique_id (relay 1 (PyStr "lamp") (PyStr "ON")) fetched_store).1
  = (DINRelay_unique_id (relay 3 (PyStr "") (PyStr "ON")) fetched_store).1
  <-> "10.0.0.2" = "10.0.0.2" /\ 1 = 3.
Proof.
  apply (unique_id_injective
           (relay 1 (PyStr "lamp") (PyStr "ON"))
           (relay 3 (PyStr "") (PyStr "ON")) fetched_store
           (refreshed 0 three_rows
              (DINRelayDevice__init__ relay_switch "10.0.0.2"))
           (refreshed 0 three_rows
              (DINRelayDevice__init__ relay_switch "10.0.0.2"))).
  - reflexivity.
  - reflexivity.
Defined.

(** ** What a refresh changes *)

Lemma update_dangling st self now :
  devices st !! self = None ->
  DINRelayDevice_update self now st = (Raise ReferenceError, st).
Proof.
  intros Hd. unfold DINRelayDevice_update, Throttle.wrap, mbind, M_bind,
    read_device. by rewrite Hd.
Qed.

(** The four ways a refresh can go. *)
Lemma update_cases st self now :
  (devices st !! self = None
   /\ DINRelayDevice_update self now st = (Raise ReferenceError, st))
  \/ (exists d,
        devices st !! self = Some d
        /\ DINRelayDevice_update self now st = (Return tt, st))
  \/ (exists d l,
        devices st !! self = Some d
        /\ next_reply st = Return l
        /\ DINRelayDevice_update self now st
           = (Return tt,
              {| devices := <[self := refreshed now l d]> (devices st);
                 world := world (count_query st) |}))
  \/ (exists d e,
        devices st !! self = Some d
        /\ Throttle.throttled MIN_TIME_BETWEEN_UPDATES (lastFetchTime d) now
           = false
        /\ next_reply st = Raise e
        /\ DINRelayDevice_update self now st = (Raise e, count_query st)).
Proof.
  destruct (devices st !! self) as [d|] eqn:Hd;
    [|left; split; [done|by apply update_dangling]].
  right.
  destruct (Throttle.throttled MIN_TIME_BETWEEN_UPDATES (lastFetchTime d) now)
    eqn:Ht; [left; exists d; split; [done|by apply (update_throttled _ _ d)]|].
  right. destruct (next_reply st) as [l|e] eqn:Hr.
  - left. exists d, l. split; [done|]. split; [done|by apply update_fetched].
  - right. exists d, e. repeat split; try done.
    by apply (update_failed _ _ d).
Qed.

(** X6: a refresh of a device ([DINRelayDevice.update]), however it ends,
    creates and removes no device object, leaves every other device as it
    is, and on the device itself changes neither [hostname] nor
    [_power_switch]: only the cached list and the time of the last fetch
    can differ. *)
Theorem update_device_frame st self now :
  let st' := (DINRelayDevice_update self now st).2 in
  length (devices st') = length (devices st)
  /\ forall q d,
       devices st !! q = Some d ->
       exists d',
         devices st' !! q = Some d'
         /\ hostname d' = hostname d
         /\ _power_switch d' = _power_switch d
         /\ (q <> self -> d' = d).
Proof.
  intros st'. subst st'.
  destruct (update_cases st self now)
    as [[_ ->]|[(d & _ & ->)|[(d & l & Hd & _ & ->)|(d & e & _ & _ & _ & ->)]]];
    simpl; try (split; [done|]; intros q d0 Hq; by exists d0).
  split; [apply length_insert|]. intros q d0 Hq.
  destruct (decide (q = self)) as [->|Hne].
  - exists (refreshed now l d).
    rewrite list_lookup_insert_eq by by eapply lookup_lt_Some.
    assert (d0 = d) as -> by congruence. done.
  - exists d0. by rewrite list_lookup_insert_ne.
Qed.

Lemma DINRelay_update_store self now st :
  (DINRelay_update self now st).2
  = (DINRelayDevice_update (_parent_device self) now st).2.
Proof.
  unfold DINRelay_update, mbind, M_bind.
  destruct (DINRelayDevice_update _ _ _) as [[[]|e] st1]; [|done].
  unfold DINRelayDevice_get_outlet_status, mbind, M_bind, read_device.
  destruct (devices st1 !! _) as [d|]; [|done].
  destruct (_statuslist d) as [l|]; [|done].
  unfold lift. by destruct (getitem _ _).
Qed.

(** X7: one [DINRelay.update], however it ends, issues at most one status
    query, sends no command to an outlet, logs nothing and registers
    nothing. *)
Theorem update_at_most_one_query self now st :
  let st' := (DINRelay_update self now st).2 in
  (statuslist_calls (world st) <= statuslist_calls (world st')
   <= S (statuslist_calls (world st)))%nat
  /\ outlet_calls (world st') = outlet_calls (world st)
  /\ errors (world st') = errors (world st)
  /\ added (world st') = added (world st)
  /\ statuslist_reply (world st') = statuslist_reply (world st).
Proof.
  intros st'. subst st'. rewrite DINRelay_update_store.
  destruct (update_cases st (_parent_device self) now)
    as [[_ ->]|[(d & _ & ->)|[(d & l & _ & _ & ->)|(d & e & _ & _ & _ & ->)]]];
    simpl; repeat split; lia.
Qed.

(** ** What an update changes in the entity *)

(** An [update] that returns has read a row of the snapshot that the
    refresh left in the parent device. *)
Lemma DINRelay_update_Return_inv self now st self' st' :
  DINRelay_update self now st = (Return self', st') ->
  exists d l row,
    DINRelayDevice_update (_parent_device self) now st = (Return tt, st')
    /\ devices st' !! _parent_device self = Some d
    /\ _statuslist d = Some l
    /\ getitem l (_outlet_number self - 1) = Return row
    /\ self' = updated self row.
Proof.
  unfold DINRelay_update, mbind, M_bind.
  destruct (DINRelayDevice_update _ _ _) as [[[]|e] st1]; [|done].
  unfold DINRelayDevice_get_outlet_status, mbind, M_bind, read_device.
  destruct (devices st1 !! _) as [d|] eqn:Hd; [|done].
  destruct (_statuslist d) as [l|] eqn:Hl; [|done].
  unfold lift. destruct (getitem _ _) as [row|] eqn:Hrow; [|done].
  intros [= <- <-]. by exists d, l, row.
Qed.

Lemma unique_id_of_hostname self st :
  (DINRelay_unique_id self st).1
  = match hostname <$> devices st !! _parent_device self with
    | Some h => Return (h +:+ "_" +:+ str (_outlet_number self))
    | None => Raise ReferenceError
    end.
Proof.
  unfold DINRelay_unique_id, mbind, M_bind, read_device.
  by destruct (devices st !! _).
Qed.

Lemma update_hostname st self now q :
  hostname <$> devices (DINRelayDevice_update self now st).2 !! q
  = hostname <$> devices st !! q.
Proof.
  destruct (update_cases st self now)
    as [[_ ->]|[(d & _ & ->)|[(d & l & Hd & _ & ->)|(d & e & _ & _ & _ & ->)]]];
    simpl; try done.
  destruct (decide (q = self)) as [->|Hne].
  - rewrite list_lookup_insert_eq by by eapply lookup_lt_Some.
    symmetry. exact (f_equal (fmap hostname) Hd).
  - by rewrite list_lookup_insert_ne.
Qed.

(** X8: an [update] that returns leaves the identity of the entity as it
    was: the controller name, the parent device, the outlet object and the
    outlet number are the same, and [unique_id] answers after the update
    what it answered before, whatever the controller now reports for the
    outlet. *)
Theorem update_keeps_identity self now st self' st' :
  DINRelay_update self now st = (Return self', st') ->
  _controller_name self' = _controller_name self
  /\ _parent_device self' = _parent_device self
  /\ _outlet self' = _outlet self
  /\ _outlet_number self' = _outlet_number self
  /\ (DINRelay_unique_id self' st').1 = (DINRelay_unique_id self st).1.
Proof.
  intros Hrun.
  destruct (DINRelay_update_Return_inv _ _ _ _ _ Hrun)
    as (d & l & row & Hup & _ & _ & _ & ->).
  repeat split. rewrite !unique_id_of_hostname. simpl.
  replace st' with (DINRelayDevice_update (_parent_device self) now st).2
    by by rewrite Hup.
  by rewrite update_hostname.
Qed.

Lemma update_keeps_identity_witness :
  let e := relay 2 (PyStr "2") (PyStr "ON") in
  let st := new_store (fun _ => Return three_rows) in
  _controller_name (updated e (2, PyNone, PyStr "OFF")) = _controller_name e
  /\ _parent_device (updated e (2, PyNone, PyStr "OFF")) = _parent_device e
  /\ _outlet (updated e (2, PyNone, PyStr "OFF")) = _outlet e
  /\ _outlet_number (updated e (2, PyNone, PyStr "OFF")) = _outlet_number e
  /\ (DINRelay_unique_id (updated e (2, PyNone, PyStr "OFF"))
        (DINRelay_update e 0 st).2).1
     = (DINRelay_unique_id e st).1.
Proof.
  apply (update_keeps_identity (relay 2 (PyStr "2") (PyStr "ON")) 0
           (new_store (fun _ => Return three_rows))
           (updated (relay 2 (PyStr "2") (PyStr "ON"))
              (2, PyNone, PyStr "OFF"))
           (DINRelay_update (relay 2 (PyStr "2") (PyStr "ON")) 0
              (new_store (fun _ => Return three_rows))).2).
  reflexivity.
Defined.

Lemma truthy_PyStr v : truthy v = true -> exists s, v = PyStr s /\ s <> "".
Proof. destruct v as [|[|c s]]; try done. intros _. by eexists. Qed.

(** X9: after every [update] that returns, [_name] is a string that is not
    empty, the description the controller reports or, when that is [None]
    or empty, [str] of the outlet number; so the display name never ends
    with the underscore. *)
Theorem update_name_nonempty self now st self' st' :
  DINRelay_update self now st = (Return self', st') ->
  exists s,
    _name self' = PyStr s
    /\ s <> ""
    /\ DINRelay_name self' = _controller_name self +:+ "_" +:+ s
    /\ DINRelay_name self' <> _controller_name self +:+ "_".
Proof.
  intros Hrun.
  destruct (DINRelay_update_Return_inv _ _ _ _ _ Hrun)
    as (d & l & row & _ & _ & _ & _ & ->).
  assert (exists s, _name (updated self row) = PyStr s /\ s <> "")
    as (s & Hs & Hne).
  { simpl. unfold py_or. destruct (truthy (row.1.2)) eqn:Ht.
    - by apply truthy_PyStr.
    - eexists. split; [done|]. apply str_nonempty. }
  exists s. split; [done|]. split; [done|].
  rewrite DINRelay_name_format, Hs. simpl. split; [done|].
  intros Heq.
  change (_controller_name self +:+ "_" +:+ s
          = _controller_name self +:+ "_" +:+ "") in Heq.
  by apply append_inj_r, append_inj_r in Heq.
Qed.

Lemma update_name_nonempty_witness :
  exists s,
    _name (updated (relay 3 (PyStr "") (PyStr "ON")) (3, PyStr "", PyStr "ON"))
    = PyStr s
    /\ s <> ""
    /\ DINRelay_name
         (updated (relay 3 (PyStr "") (PyStr "ON")) (3, PyStr "", PyStr "ON"))
       = "DINRelay" +:+ "_" +:+ s
    /\ DINRelay_name
         (updated (relay 3 (PyStr "") (PyStr "ON")) (3, PyStr "", PyStr "ON"))
       <> "DINRelay" +:+ "_".
Proof.
  apply (update_name_nonempty (relay 3 (PyStr "") (PyStr "ON")) 0
           (new_store (fun _ => Return three_rows))
           (updated (relay 3 (PyStr "") (PyStr "ON"))
              (3, PyStr "", PyStr "ON"))
           (DINRelay_update (relay 3 (PyStr "") (PyStr "ON")) 0
              (new_store (fun _ => Return three_rows))).2).
  reflexivity.
Defined.

(** ** Polling a controller that has not changed *)

(** X10: an entity that the set-up built from a row, polled while the
    controller reports the same row at the position of its outlet number,
    is not changed by [update], provided the description of the row is
    not the empty string: the name and the state it shows are those of the
    set-up. *)
Theorem update_of_unchanged_row c p n d s now st st1 d1 l :
  DINRelayDevice_update p now st = (Return tt, st1) ->
  devices st1 !! p = Some d1 ->
  _statuslist d1 = Some l ->
  1 <= n ->
  l !! Z.to_nat (n - 1) = Some (n, d, s) ->
  d <> PyStr "" ->
  DINRelay_update (row_entity c p (n, d, s)) now st
  = (Return (row_entity c p (n, d, s)), st1).
Proof.
  intros Hup Hd Hl Hn Hrow Hne.
  rewrite (DINRelay_update_Return (row_entity c p (n, d, s)) now st st1 d1 l
             (n, d, s) Hup Hd Hl).
  - do 2 f_equal. unfold updated, row_entity, setup_entity, DINRelay__init__.
    simpl. by destruct d as [|[|a s']].
  - simpl. by apply getitem_in_range; [lia|].
Qed.

Lemma update_of_unchanged_row_witness :
  DINRelay_update (row_entity "DINRelay" 0%nat (2, PyNone, PyStr "OFF")) 0
    (new_store (fun _ => Return three_rows))
  = (Return (row_entity "DINRelay" 0%nat (2, PyNone, PyStr "OFF")),
     fetched_store).
Proof.
  apply (update_of_unchanged_row "DINRelay" 0%nat 2 PyNone (PyStr "OFF") 0
           (new_store (fun _ => Return three_rows)) fetched_store
           (refreshed 0 three_rows
              (DINRelayDevice__init__ relay_switch "10.0.0.2"))
           three_rows).
  - reflexivity.
  - reflexivity.
  - reflexivity.
  - lia.
  - reflexivity.
  - discriminate.
Defined.

(** ** Witnesses of the shared query and of the stale read *)

Lemma two_entities_one_query_witness :
  exists st1,
    DINRelay_update (relay 1 (PyStr "lamp") (PyStr "OFF")) 0
      (new_store (fun _ => Return three_rows))
    = (Return (updated (relay 1 (PyStr "lamp") (PyStr "OFF"))
                 (1, PyStr "lamp", PyStr "ON")), st1)
    /\ DINRelay_update (relay 2 (PyStr "2") (PyStr "ON"))
         (timedelta_seconds 1) st1
       = (Return (updated (relay 2 (PyStr "2") (PyStr "ON"))
                    (2, PyNone, PyStr "OFF")), st1)
    /\ statuslist_calls (world st1) = 1%nat.
Proof.
  apply (two_entities_one_query
           (relay 1 (PyStr "lamp") (PyStr "OFF"))
           (relay 2 (PyStr "2") (PyStr "ON"))
           (new_store (fun _ => Return three_rows))
           (DINRelayDevice__init__ relay_switch "10.0.0.2")
           0 (timedelta_seconds 1) three_rows).
  - reflexivity.
  - reflexivity.
  - reflexivity.
  - reflexivity.
  - vm_compute. reflexivity.
  - reflexivity.
  - reflexivity.
Defined.

Lemma turn_on_then_update_is_stale_witness :
  let e := relay 2 (PyStr "2") (PyStr "OFF") in
  let st' := (DINRelay_turn_on e fetched_store).2 in
  DINRelay_update e (timedelta_seconds 1) st'
  = (Return (updated e (2, PyNone, PyStr "OFF")), st').
Proof.
  apply (turn_on_then_update_is_stale
           (relay 2 (PyStr "2") (PyStr "OFF")) fetched_store
           (DINRelay_turn_on (relay 2 (PyStr "2") (PyStr "OFF"))
              fetched_store).2
           (refreshed 0 three_rows
              (DINRelayDevice__init__ relay_switch "10.0.0.2"))
           three_rows (2, PyNone, PyStr "OFF") (timedelta_seconds 1) 0).
  - reflexivity.
  - reflexivity.
  - reflexivity.
  - vm_compute. reflexivity.
  - reflexivity.
  - reflexivity.
Defined.

(** ** The outlet a command addresses *)

(** X14: a command of an entity that the set-up registered goes to the
    outlet object built at the set-up, also after an [update] has renamed
    the entity or changed its state: the command carries the outlet number
    of the row the entity was built from and the reference of the parent
    device, and exactly one command is added to those sent so far. *)
Theorem command_targets_own_outlet c p ign row e now st e' st' (on : bool) :
  registered c p ign row = Some e ->
  DINRelay_update e now st = (Return e', st') ->
  let method := if on then DINRelay_turn_on else DINRelay_turn_off in
  exists o,
    outlet_calls (world (method e' st').2)
    = (outlet_calls (world st') ++ [(o, on)])%list
    /\ o = _outlet e
    /\ outlet_number o = row.1.1
    /\ switch o = p.
Proof.
  intros Hreg Hrun method.
  destruct (DINRelay_update_Return_inv _ _ _ _ _ Hrun)
    as (d & l & r & _ & _ & _ & _ & ->).
  assert (kept ign row = true) as Hk.
  { destruct (kept ign row) eqn:Hk; [done|].
    by rewrite registered_not_kept in Hreg. }
  destruct (registered_kept c p ign row Hk)
    as (e0 & He0 & Hn & _ & Hs & Ho & _).
  assert (e0 = e) as -> by congruence.
  exists (_outlet e). split; [|split; [done|split; [congruence|done]]].
  subst method.
  destruct on; unfold DINRelay_turn_on, DINRelay_turn_off, Outlet_on,
    Outlet_off, Outlet_set, mbind, M_bind; simpl;
    by destruct (outlet_reply _ _).
Qed.

Lemma command_targets_own_outlet_witness :
  let e := relay 2 (PyStr "2") (PyStr "OFF") in
  exists o,
    outlet_calls
      (world (DINRelay_turn_on (updated e (2, PyNone, PyStr "OFF"))
                fetched_store).2)
    = (outlet_calls (world fetched_store) ++ [(o, true)])%list
    /\ o = _outlet e
    /\ outlet_number o = 2
    /\ switch o = 0%nat.
Proof.
  apply (command_targets_own_outlet "DINRelay" 0%nat false
           (2, PyNone, PyStr "OFF")
           (relay 2 (PyStr "2") (PyStr "OFF")) 0
           (new_store (fun _ => Return three_rows))
           (updated (relay 2 (PyStr "2") (PyStr "OFF"))
              (2, PyNone, PyStr "OFF"))
           fetched_store true).
  - reflexivity.
  - reflexivity.
Defined.
